(** * vmodem: a Hayes-compatible virtual modem

    Shallow embedding of [vmodem.go]: the status state machine
    ([setStatus]), the result-code printer ([printRetCode]), the AT command
    executor ([processCommand]) and tokenizer ([processAtCommand]), the
    per-byte body of the terminal read task ([ttyReadTask]) and the dial
    task ([processDialing]).

    Modelling conventions.
    - Go [string]s are byte sequences: [string] of [ascii].
    - Go [int] is 64 bits; it is a [Z], and the only place where the width
      shows ([strconv.Atoi] saturating on overflow) is written out.
    - The modem is a record of its mutable fields; every method body runs
      with the mutex held, so a method is one atomic function on that
      record.  A Go panic is the [Panicked] outcome.
    - The terminal stream is the list of the chunks written to it, together
      with a closed flag.  A connection stream is known by an identity
      ([Conn]); the record keeps which streams were closed and what was
      written to them.
    - A cancellation scope created by [context.WithCancel] is known by the
      number of status transitions that preceded its creation: [setStatus]
      cancels the current scope and creates the next one. *)

From Stdlib Require Import ZArith String Ascii List Lia Bool.
From stdpp Require Import base option gmap.

Import ListNotations.
Local Open Scope string_scope.
Local Open Scope Z_scope.

(** ** Outcomes *)

Inductive Panic : Type :=
| ErrInvalidStateTransition   (* panic(ErrInvalidStateTransition) *)
| NilDereference.             (* method call on a nil interface value *)

Inductive Result (A : Type) : Type :=
| Ok (a : A)
| Panicked (p : Panic).

Arguments Ok {A} a.
Arguments Panicked {A} p.

Definition bindR {A B : Type} (r : Result A) (k : A -> Result B) : Result B :=
  match r with
  | Ok a => k a
  | Panicked p => Panicked p
  end.

Notation "x <-! r ; k" := (bindR r (fun x => k))
  (at level 100, r at next level, right associativity).

(** ** Data model *)

Inductive ModemStatus : Type :=
| StatusIdle
| StatusDialing
| StatusConnected
| StatusConnectedCmd
| StatusRinging
| StatusClosed.

Inductive CmdReturn : Type :=
| RetCodeOk
| RetCodeError
| RetCodeSilent
| RetCodeConnect
| RetCodeNoCarrier
| RetCodeNoDialtone
| RetCodeBusy
| RetCodeNoAnswer
| RetCodeSkip.

Definition ModemStatus_eqb (a b : ModemStatus) : bool :=
  match a, b with
  | StatusIdle, StatusIdle
  | StatusDialing, StatusDialing
  | StatusConnected, StatusConnected
  | StatusConnectedCmd, StatusConnectedCmd
  | StatusRinging, StatusRinging
  | StatusClosed, StatusClosed => true
  | _, _ => false
  end.

Definition CmdReturn_eqb (a b : CmdReturn) : bool :=
  match a, b with
  | RetCodeOk, RetCodeOk
  | RetCodeError, RetCodeError
  | RetCodeSilent, RetCodeSilent
  | RetCodeConnect, RetCodeConnect
  | RetCodeNoCarrier, RetCodeNoCarrier
  | RetCodeNoDialtone, RetCodeNoDialtone
  | RetCodeBusy, RetCodeBusy
  | RetCodeNoAnswer, RetCodeNoAnswer
  | RetCodeSkip, RetCodeSkip => true
  | _, _ => false
  end.

(** Identity of an [io.ReadWriteCloser] used as a connection. *)
Definition Conn : Type := nat.

(** The mutable fields of [Modem].  [outgoingCall] records whether the
    configured capability is non-nil; the capability itself runs outside
    the lock and its outcome is an input of [processDialing].  The
    command hook is configuration and is passed next to the record. *)
Record Modem : Type := mkModem {
  ctxCancelled : bool;                      (* m.cancel() was called *)
  st : ModemStatus;
  stCtx : nat;                              (* the current status scope *)
  ttyOut : list string;                     (* chunks written to m.tty *)
  ttyClosed : bool;
  conn : option Conn;                       (* None is nil *)
  connClosed : list Conn;                   (* streams on which Close ran *)
  connOut : list (Conn * ascii);            (* bytes written to streams *)
  outgoingCall : bool;
  connectStr : string;
  sregs : gmap Z Z;
  echo : bool;
  shortForm : bool;
  dialTasks : list (nat * string);          (* go m.processDialing(ctx, number) *)
  stdout : list (ModemStatus * ModemStatus) (* the transition log *)
}.

Definition set_st (s : ModemStatus) (m : Modem) : Modem :=
  mkModem (ctxCancelled m) s (stCtx m) (ttyOut m) (ttyClosed m) (conn m)
    (connClosed m) (connOut m) (outgoingCall m) (connectStr m) (sregs m)
    (echo m) (shortForm m) (dialTasks m) (stdout m).

Definition set_stCtx (g : nat) (m : Modem) : Modem :=
  mkModem (ctxCancelled m) (st m) g (ttyOut m) (ttyClosed m) (conn m)
    (connClosed m) (connOut m) (outgoingCall m) (connectStr m) (sregs m)
    (echo m) (shortForm m) (dialTasks m) (stdout m).

Definition set_ctxCancelled (b : bool) (m : Modem) : Modem :=
  mkModem b (st m) (stCtx m) (ttyOut m) (ttyClosed m) (conn m)
    (connClosed m) (connOut m) (outgoingCall m) (connectStr m) (sregs m)
    (echo m) (shortForm m) (dialTasks m) (stdout m).

Definition set_ttyOut (o : list string) (m : Modem) : Modem :=
  mkModem (ctxCancelled m) (st m) (stCtx m) o (ttyClosed m) (conn m)
    (connClosed m) (connOut m) (outgoingCall m) (connectStr m) (sregs m)
    (echo m) (shortForm m) (dialTasks m) (stdout m).

Definition set_ttyClosed (b : bool) (m : Modem) : Modem :=
  mkModem (ctxCancelled m) (st m) (stCtx m) (ttyOut m) b (conn m)
    (connClosed m) (connOut m) (outgoingCall m) (connectStr m) (sregs m)
    (echo m) (shortForm m) (dialTasks m) (stdout m).

Definition set_conn (c : option Conn) (m : Modem) : Modem :=
  mkModem (ctxCancelled m) (st m) (stCtx m) (ttyOut m) (ttyClosed m) c
    (connClosed m) (connOut m) (outgoingCall m) (connectStr m) (sregs m)
    (echo m) (shortForm m) (dialTasks m) (stdout m).

Definition set_connClosed (l : list Conn) (m : Modem) : Modem :=
  mkModem (ctxCancelled m) (st m) (stCtx m) (ttyOut m) (ttyClosed m) (conn m)
    l (connOut m) (outgoingCall m) (connectStr m) (sregs m)
    (echo m) (shortForm m) (dialTasks m) (stdout m).

Definition set_connOut (l : list (Conn * ascii)) (m : Modem) : Modem :=
  mkModem (ctxCancelled m) (st m) (stCtx m) (ttyOut m) (ttyClosed m) (conn m)
    (connClosed m) l (outgoingCall m) (connectStr m) (sregs m)
    (echo m) (shortForm m) (dialTasks m) (stdout m).

Definition set_sregs (r : gmap Z Z) (m : Modem) : Modem :=
  mkModem (ctxCancelled m) (st m) (stCtx m) (ttyOut m) (ttyClosed m) (conn m)
    (connClosed m) (connOut m) (outgoingCall m) (connectStr m) r
    (echo m) (shortForm m) (dialTasks m) (stdout m).

Definition set_echo (b : bool) (m : Modem) : Modem :=
  mkModem (ctxCancelled m) (st m) (stCtx m) (ttyOut m) (ttyClosed m) (conn m)
    (connClosed m) (connOut m) (outgoingCall m) (connectStr m) (sregs m)
    b (shortForm m) (dialTasks m) (stdout m).

Definition set_shortForm (b : bool) (m : Modem) : Modem :=
  mkModem (ctxCancelled m) (st m) (stCtx m) (ttyOut m) (ttyClosed m) (conn m)
    (connClosed m) (connOut m) (outgoingCall m) (connectStr m) (sregs m)
    (echo m) b (dialTasks m) (stdout m).

Definition set_dialTasks (l : list (nat * string)) (m : Modem) : Modem :=
  mkModem (ctxCancelled m) (st m) (stCtx m) (ttyOut m) (ttyClosed m) (conn m)
    (connClosed m) (connOut m) (outgoingCall m) (connectStr m) (sregs m)
    (echo m) (shortForm m) l (stdout m).

Definition set_stdout (l : list (ModemStatus * ModemStatus)) (m : Modem) : Modem :=
  mkModem (ctxCancelled m) (st m) (stCtx m) (ttyOut m) (ttyClosed m) (conn m)
    (connClosed m) (connOut m) (outgoingCall m) (connectStr m) (sregs m)
    (echo m) (shortForm m) (dialTasks m) l.

(** The command hook may inspect the modem and call back into it (it
    receives the modem with the lock held), so it is a transformer of the
    record that may panic. *)
Definition CommandHookType : Type :=
  Modem -> string -> string -> bool -> bool -> string -> Result (CmdReturn * Modem).

Record ModemConfig : Type := mkConfig {
  OutgoingCall : bool;                   (* config.OutgoingCall != nil *)
  CommandHook : option CommandHookType;
  ConnectStr : string
}.

(** ** Bytes *)

Definition byteZ (b : ascii) : Z := Z.of_N (N_of_ascii b).

Definition checkValidCmdChar (b : ascii) : bool :=
  ((65 <=? byteZ b) && (byteZ b <=? 90)) || ((97 <=? byteZ b) && (byteZ b <=? 122)).

Definition checkValidNumChar (b : ascii) : bool :=
  (48 <=? byteZ b) && (byteZ b <=? 57).

(** ** Terminal output *)

Definition ttyWriteStr (s : string) (m : Modem) : Modem :=
  set_ttyOut (ttyOut m ++ [s])%list m.

Definition CR : string := String (ascii_of_nat 13) EmptyString.
Definition CRLF : string := String (ascii_of_nat 13) (String (ascii_of_nat 10) EmptyString).

Definition cr (m : Modem) : string :=
  if shortForm m then CR else CRLF.

Definition retStr (m : Modem) (ret : CmdReturn) : string :=
  if shortForm m then
    match ret with
    | RetCodeOk => "0"
    | RetCodeError => "4"
    | RetCodeConnect => "1"
    | RetCodeNoCarrier => "3"
    | RetCodeNoDialtone => "6"
    | RetCodeBusy => "7"
    | RetCodeNoAnswer => "8"
    | _ => ""
    end
  else
    match ret with
    | RetCodeOk => "OK"
    | RetCodeError => "ERROR"
    | RetCodeConnect => connectStr m
    | RetCodeNoCarrier => "NO CARRIER"
    | RetCodeNoDialtone => "NO DIALTONE"
    | RetCodeBusy => "BUSY"
    | RetCodeNoAnswer => "NO ANSWER"
    | _ => ""
    end.

Definition printRetCode (ret : CmdReturn) (m : Modem) : Modem :=
  match ret with
  | RetCodeSilent => m
  | _ => ttyWriteStr (cr m ++ retStr m ret ++ cr m) m
  end.

(** ** Status state machine *)

(** [m.conn.Close(); m.conn = nil]: a nil [m.conn] panics. *)
Definition closeConn (m : Modem) : Result Modem :=
  match conn m with
  | Some c => Ok (set_conn None (set_connClosed (connClosed m ++ [c])%list m))
  | None => Panicked NilDereference
  end.

(** The tail of [setStatus]: cancel the status scope, create the next one,
    store the status and log the transition. *)
Definition commitStatus (prevStatus status : ModemStatus) (m : Modem) : Modem :=
  set_stdout (stdout m ++ [(prevStatus, status)])%list
    (set_st status (set_stCtx (S (stCtx m)) m)).

Definition setStatus (status : ModemStatus) (m : Modem) : Result Modem :=
  let prevStatus := st m in
  match prevStatus with
  | StatusClosed => Panicked ErrInvalidStateTransition
  | _ =>
    m1 <-! match status with
           | StatusIdle =>
             let m1 :=
               match prevStatus with
               | StatusConnected | StatusConnectedCmd | StatusDialing =>
                 printRetCode RetCodeNoCarrier m
               | _ => m
               end in
             match prevStatus with
             | StatusConnected | StatusConnectedCmd | StatusRinging => closeConn m1
             | _ => Ok m1
             end
           | StatusConnected =>
             match prevStatus with
             | StatusDialing | StatusRinging | StatusConnectedCmd =>
               Ok (printRetCode RetCodeConnect m)
             | _ => Panicked ErrInvalidStateTransition
             end
           | StatusConnectedCmd =>
             match prevStatus with
             | StatusConnected => Ok (printRetCode RetCodeOk m)
             | _ => Panicked ErrInvalidStateTransition
             end
           | StatusDialing =>
             match prevStatus with
             | StatusIdle => Ok m
             | _ => Panicked ErrInvalidStateTransition
             end
           | StatusRinging =>
             match prevStatus with
             | StatusIdle => Ok m
             | _ => Panicked ErrInvalidStateTransition
             end
           | StatusClosed => Ok m
           end;
    Ok (commitStatus prevStatus status m1)
  end.

Definition status (m : Modem) : ModemStatus := st m.

(** [ctx.Err() != nil] for the status scope [g]: it was cancelled by a later
    [setStatus], or its parent was cancelled.  The first scope is a child
    of the context given to [NewModem] (taken to stay live), the later ones
    are children of [m.ctx]. *)
Definition ctxErr (g : nat) (m : Modem) : bool :=
  (g <? stCtx m)%nat || ((0 <? g)%nat && ctxCancelled m).

Definition close (m : Modem) : Result Modem :=
  m1 <-! setStatus StatusClosed m;
  Ok (set_ttyClosed true (set_ctxCancelled true m1)).

(** [incomingCall] returns [ErrModemBusy] ([false] here) unless Idle. *)
Definition incomingCall (c : option Conn) (m : Modem) : Result (bool * Modem) :=
  match status m with
  | StatusIdle =>
    m1 <-! setStatus StatusRinging m;
    Ok (true, set_conn c m1)
  | _ => Ok (false, m)
  end.

(** ** Library functions used by the command executor *)

Definition maxUint64 : Z := 18446744073709551615.
Definition maxInt64 : Z := 9223372036854775807.
Definition minInt64 : Z := -9223372036854775808.

Inductive Parsed : Type :=
| PSyntax            (* strconv.ErrSyntax *)
| PRange             (* strconv.ErrRange *)
| PVal (n : Z).

(** [strconv.ParseUint] in base 10, scanning left to right: a byte that is
    not a digit is a syntax error, a value beyond 64 bits a range error,
    whichever comes first. *)
Fixpoint parseUint (s : string) (n : Z) : Parsed :=
  match s with
  | EmptyString => PVal n
  | String c s' =>
    if checkValidNumChar c then
      let n1 := n * 10 + (byteZ c - 48) in
      if n1 >? maxUint64 then PRange else parseUint s' n1
    else PSyntax
  end.

(** [strconv.Atoi] with its error dropped ([n, _ := strconv.Atoi(s)]): 0 on
    a syntax error (the empty string included), the nearest bound on a
    range error. *)
Definition Atoi (s : string) : Z :=
  let '(neg, ds) :=
    match s with
    | String c s' =>
      if Ascii.eqb c "-" then (true, s')
      else if Ascii.eqb c "+" then (false, s')
      else (false, s)
    | EmptyString => (false, s)
    end in
  match ds with
  | EmptyString => 0
  | _ =>
    match parseUint ds 0 with
    | PSyntax => 0
    | PRange => if neg then minInt64 else maxInt64
    | PVal un =>
      if neg then (if un >? maxInt64 + 1 then minInt64 else - un)
      else (if un >? maxInt64 then maxInt64 else un)
    end
  end.

Definition digitChar (d : Z) : ascii := ascii_of_N (Z.to_N (48 + d)).

(** [fmt.Sprintf("%03d", v)] for a [byte] [v] (0 to 255): three digits. *)
Definition fmt03d (v : Z) : string :=
  String (digitChar (v / 100))
    (String (digitChar (v / 10 mod 10))
      (String (digitChar (v mod 10)) EmptyString)).

(** [string(b)] for a byte [b]: the UTF-8 encoding of the code point [b]. *)
Definition stringOfByte (b : ascii) : string :=
  if byteZ b <? 128 then String b EmptyString
  else String (ascii_of_N (Z.to_N (192 + byteZ b / 64)))
         (String (ascii_of_N (Z.to_N (128 + byteZ b mod 64))) EmptyString).

Definition upperByte (b : ascii) : ascii :=
  if (97 <=? byteZ b) && (byteZ b <=? 122)
  then ascii_of_N (Z.to_N (byteZ b - 32)) else b.

(** [strings.ToUpper] on the command name, whose bytes are all ASCII. *)
Fixpoint ToUpper (s : string) : string :=
  match s with
  | EmptyString => EmptyString
  | String b s' => String (upperByte b) (ToUpper s')
  end.

(** [byte(r)] *)
Definition byteOfInt (r : Z) : Z := r mod 256.

(** ** Command executor *)

Definition builtinCommand (cmdChar cmdNum : string)
    (cmdAssign cmdQuery : bool) (cmdAssignVal : string) (m : Modem)
  : Result (CmdReturn * Modem) :=
  if String.eqb cmdChar "S" then
    let r := Atoi cmdNum in
    if (r <? 0) || (r >? 255) then Ok (RetCodeError, m)
    else if cmdAssign then
      let v := Atoi cmdAssignVal in
      if (v <? 0) || (v >? 255) then Ok (RetCodeError, m)
      else Ok (RetCodeOk, set_sregs (<[byteOfInt r := byteOfInt v]> (sregs m)) m)
    else if cmdQuery then
      let v := default 0 (sregs m !! byteOfInt r) in
      Ok (RetCodeOk, ttyWriteStr (cr m ++ fmt03d v ++ CRLF) m)
    else Ok (RetCodeOk, m)
  else if String.eqb cmdChar "E" then
    let n := Atoi cmdNum in
    if n =? 0 then Ok (RetCodeOk, set_echo false m)
    else if n =? 1 then Ok (RetCodeOk, set_echo true m)
    else Ok (RetCodeError, m)
  else if String.eqb cmdChar "V" then
    let n := Atoi cmdNum in
    if n =? 0 then Ok (RetCodeOk, set_shortForm true m)
    else if n =? 1 then Ok (RetCodeOk, set_shortForm false m)
    else Ok (RetCodeError, m)
  else if String.eqb cmdChar "D" then
    if negb (ModemStatus_eqb (status m) StatusIdle) then Ok (RetCodeError, m)
    else if outgoingCall m then
      m1 <-! setStatus StatusDialing m;
      Ok (RetCodeSilent,
          set_dialTasks (dialTasks m1 ++ [(stCtx m1, cmdAssignVal)])%list m1)
    else Ok (RetCodeNoCarrier, m)
  else if String.eqb cmdChar "A" then
    if ModemStatus_eqb (status m) StatusIdle then Ok (RetCodeNoCarrier, m)
    else if negb (ModemStatus_eqb (status m) StatusRinging) then Ok (RetCodeError, m)
    else
      m1 <-! setStatus StatusConnected m;
      Ok (RetCodeSilent, m1)
  else if String.eqb cmdChar "H" then
    if ModemStatus_eqb (status m) StatusConnected
       || ModemStatus_eqb (status m) StatusConnectedCmd then
      m1 <-! setStatus StatusIdle m;
      Ok (RetCodeSilent, m1)
    else Ok (RetCodeOk, m)
  else if String.eqb cmdChar "O" then
    if negb (ModemStatus_eqb (status m) StatusConnectedCmd) then Ok (RetCodeError, m)
    else
      m1 <-! setStatus StatusConnected m;
      Ok (RetCodeSilent, m1)
  else Ok (RetCodeOk, m).

Definition processCommand (hook : option CommandHookType)
    (cmdChar cmdNum : string) (cmdAssign cmdQuery : bool)
    (cmdAssignVal : string) (m : Modem) : Result (CmdReturn * Modem) :=
  match hook with
  | Some h =>
    rm <-! h m cmdChar cmdNum cmdAssign cmdQuery cmdAssignVal;
    match fst rm with
    | RetCodeSkip =>
      builtinCommand cmdChar cmdNum cmdAssign cmdQuery cmdAssignVal (snd rm)
    | _ => Ok rm
    end
  | None => builtinCommand cmdChar cmdNum cmdAssign cmdQuery cmdAssignVal m
  end.

(** ** Tokenizer *)

(** The six locals of one pass of the outer loop of [processAtCommand]. *)
Record SubCmd : Type := mkSubCmd {
  cmdChar : string;
  cmdNum : string;
  cmdLong : bool;
  cmdAssign : bool;
  cmdQuery : bool;
  cmdAssignVal : string
}.

Definition emptySubCmd : SubCmd := mkSubCmd "" "" false false false "".

Definition isEmpty (s : string) : bool :=
  match s with EmptyString => true | _ => false end.

(** The inner loop: reads bytes of [buf] into the locals until a [break]
    or the end of the buffer.  Returns the locals, the flag [e] and the
    unread rest of the buffer ([UnreadByte] leaves the byte in it). *)
Fixpoint scanSubCmd (buf : string) (c : SubCmd) : SubCmd * bool * string :=
  match buf with
  | EmptyString => (c, false, EmptyString)
  | String b rest =>
    let addChar c :=
      mkSubCmd (cmdChar c ++ stringOfByte b) (cmdNum c) (cmdLong c)
        (cmdAssign c) (cmdQuery c) (cmdAssignVal c) in
    if Ascii.eqb b "?" then
      if negb (isEmpty (cmdChar c)) then
        (mkSubCmd (cmdChar c) (cmdNum c) (cmdLong c) (cmdAssign c) true
           (cmdAssignVal c), false, rest)
      else (c, true, rest)
    else if cmdAssign c then
      if negb (cmdLong c) && negb (checkValidNumChar b) then (c, false, buf)
      else
        scanSubCmd rest
          (mkSubCmd (cmdChar c) (cmdNum c) (cmdLong c) (cmdAssign c)
             (cmdQuery c) (cmdAssignVal c ++ stringOfByte b))
    else if Ascii.eqb b "+" || Ascii.eqb b "#" then
      if isEmpty (cmdChar c) then
        scanSubCmd rest
          (mkSubCmd (cmdChar c ++ stringOfByte b) (cmdNum c) true
             (cmdAssign c) (cmdQuery c) (cmdAssignVal c))
      else (c, true, rest)
    else if Ascii.eqb b "=" then
      if negb (isEmpty (cmdChar c)) then
        scanSubCmd rest
          (mkSubCmd (cmdChar c) (cmdNum c) (cmdLong c) true (cmdQuery c)
             (cmdAssignVal c))
      else (c, true, rest)
    else if cmdLong c then
      if checkValidCmdChar b then scanSubCmd rest (addChar c)
      else (c, true, rest)
    else if isEmpty (cmdChar c) || String.eqb (cmdChar c) "&" then
      if Ascii.eqb b "&" && isEmpty (cmdChar c) && (0 <? String.length rest)%nat
      then scanSubCmd rest (addChar c)
      else if checkValidCmdChar b then
        let c1 := addChar c in
        if String.eqb (cmdChar c1) "d" || String.eqb (cmdChar c1) "D" then
          scanSubCmd rest
            (mkSubCmd (cmdChar c1) (cmdNum c1) true true (cmdQuery c1)
               (cmdAssignVal c1))
        else scanSubCmd rest c1
      else (c, true, rest)
    else
      if checkValidNumChar b then
        scanSubCmd rest
          (mkSubCmd (cmdChar c) (cmdNum c ++ stringOfByte b) (cmdLong c)
             (cmdAssign c) (cmdQuery c) (cmdAssignVal c))
      else (c, false, buf)
  end.

Definition dispatch (hook : option CommandHookType) (c : SubCmd) (m : Modem)
  : Result (CmdReturn * Modem) :=
  processCommand hook (ToUpper (cmdChar c)) (cmdNum c) (cmdAssign c)
    (cmdQuery c) (cmdAssignVal c) m.

(** The outer loop.  Every pass over a non-empty buffer reads at least one
    byte, so [String.length buf] passes are enough; [atLoop_fuel] below
    shows that the bound is never what ends the loop.  Returns [cmdRet],
    [e] and the modem. *)
Fixpoint atLoop (hook : option CommandHookType) (fuel : nat) (buf : string)
    (cmdRet : CmdReturn) (m : Modem) : Result (CmdReturn * bool * Modem) :=
  match fuel with
  | O => Ok (cmdRet, false, m)
  | S fuel' =>
    if isEmpty buf then Ok (cmdRet, false, m)
    else
      let '(c, e, rest) := scanSubCmd buf emptySubCmd in
      if e then Ok (cmdRet, true, m)
      else
        rm <-! dispatch hook c m;
        if CmdReturn_eqb (fst rm) RetCodeError then Ok (fst rm, false, snd rm)
        else if cmdLong c then Ok (fst rm, false, snd rm)
        else atLoop hook fuel' rest (fst rm) (snd rm)
  end.

Definition processAtCommand (hook : option CommandHookType) (cmd : string)
    (m : Modem) : Result (CmdReturn * Modem) :=
  if negb (ModemStatus_eqb (status m) StatusIdle)
     && negb (ModemStatus_eqb (status m) StatusConnectedCmd)
  then Ok (RetCodeError, m)
  else
    r <-! atLoop hook (String.length cmd) cmd RetCodeOk m;
    let '(cmdRet, e, m1) := r in
    Ok (if e then RetCodeError else cmdRet, m1).

(** ** Construction *)

(** [NewModem] on a configuration whose terminal stream is present. *)
Definition NewModem (config : ModemConfig) : Modem :=
  mkModem false StatusIdle 0 [] false None [] [] (OutgoingCall config)
    (if isEmpty (ConnectStr config) then "CONNECT" else ConnectStr config)
    ∅ true false [] [].

(** ** Terminal read task *)

(** The locals of [ttyReadTask] that live across iterations. *)
Record ReadTask : Type := mkReadTask {
  aFlag : bool;
  atFlag : bool;
  buffer : string;
  lastCmd : string
}.

Definition newReadTask : ReadTask := mkReadTask false false "" "".

(** [strconv.IsPrint(rune(b))] for a byte: the printable ASCII range, and
    Latin-1 from U+00A1 except the soft hyphen U+00AD. *)
Definition IsPrint (b : ascii) : bool :=
  ((32 <=? byteZ b) && (byteZ b <? 127))
  || ((161 <=? byteZ b) && negb (byteZ b =? 173)).

(** [buffer.Truncate(buffer.Len() - 1)] *)
Fixpoint dropLast (s : string) : string :=
  match s with
  | EmptyString => EmptyString
  | String _ EmptyString => EmptyString
  | String b s' => String b (dropLast s')
  end.

Definition ESC : ascii := ascii_of_nat 27.
Definition eraseSeq : string :=
  String ESC ("[D " ++ String ESC "[D").

Definition ttyWriteByte (b : ascii) (m : Modem) : Modem :=
  ttyWriteStr (String b EmptyString) m.

(** [bytes.ToUpper(byteBuff)[0] == c] for an upper-case letter [c]: a byte
    outside ASCII never maps to a letter. *)
Definition upperIs (b c : ascii) : bool := Ascii.eqb (upperByte b) c.

(** Submit [cmd]: echo a carriage return, run the line, print its result. *)
Definition submit (hook : option CommandHookType) (cmd : string) (m : Modem)
  : Result Modem :=
  rm <-! processAtCommand hook cmd (ttyWriteStr CR m);
  Ok (printRetCode (fst rm) (snd rm)).

(** One iteration of the loop of [ttyReadTask], from the moment the lock is
    taken again after a successful read of the byte [b]. *)
Definition ttyReadByte (hook : option CommandHookType) (b : ascii)
    (t : ReadTask) (m : Modem) : Result (ReadTask * Modem) :=
  if ModemStatus_eqb (status m) StatusConnected then
    match conn m with
    | Some c => Ok (t, set_connOut (connOut m ++ [(c, b)])%list m)
    | None => Ok (t, m)
    end
  else if ModemStatus_eqb (status m) StatusDialing then
    m1 <-! setStatus StatusIdle m;
    Ok (t, m1)
  else if negb (atFlag t) then
    let m1 := if echo m then ttyWriteByte b m else m in
    if upperIs b "A" then
      Ok (mkReadTask true (atFlag t) (buffer t) (lastCmd t), m1)
    else if aFlag t && Ascii.eqb b "/" then
      m2 <-! submit hook (lastCmd t) m1;
      Ok (mkReadTask false (atFlag t) (buffer t) (lastCmd t), m2)
    else if aFlag t && upperIs b "T" then
      Ok (mkReadTask false true (buffer t) (lastCmd t), m1)
    else Ok (mkReadTask false (atFlag t) (buffer t) (lastCmd t), m1)
  else
    if byteZ b =? 127 then
      if (0 <? String.length (buffer t))%nat then
        Ok (mkReadTask (aFlag t) (atFlag t) (dropLast (buffer t)) (lastCmd t),
            ttyWriteStr eraseSeq m)
      else Ok (t, m)
    else if byteZ b =? 13 then
      m1 <-! submit hook (buffer t) m;
      Ok (mkReadTask (aFlag t) false "" (buffer t), m1)
    else if (String.length (buffer t) <? 100)%nat && IsPrint b then
      Ok (mkReadTask (aFlag t) (atFlag t)
            (buffer t ++ String b EmptyString) (lastCmd t),
          if echo m then ttyWriteByte b m else m)
    else Ok (t, m).

(** The loop of [ttyReadTask] from its head, with the lock held, over the
    bytes of [input] that the terminal delivers one after the other with
    nothing else running in between.  Each pass first looks at the
    lifetime scope and leaves the loop when it is cancelled, before the
    next byte is read. *)
Fixpoint ttyReadBytes (hook : option CommandHookType) (input : string)
    (t : ReadTask) (m : Modem) : Result (ReadTask * Modem) :=
  match input with
  | EmptyString => Ok (t, m)
  | String b rest =>
    if ctxCancelled m then Ok (t, m)
    else
      tm <-! ttyReadByte hook b t m;
      ttyReadBytes hook rest (fst tm) (snd tm)
  end.

(** ** Dial task *)

(** What [m.outgoingCall(m, number)] returned: [(conn, nil)] or an error. *)
Inductive DialOutcome : Type :=
| DialConn (c : option Conn)
| DialErr.

(** [processDialing] from the moment the capability has returned and the
    lock is taken; [g] is the status scope handed to the task. *)
Definition processDialing (g : nat) (out : DialOutcome) (m : Modem)
  : Result Modem :=
  if ctxErr g m then
    match out with
    | DialConn (Some c) => Ok (set_connClosed (connClosed m ++ [c])%list m)
    | DialConn None => Panicked NilDereference
    | DialErr => Ok m
    end
  else
    match out with
    | DialErr => setStatus StatusIdle m
    | DialConn c => setStatus StatusConnected (set_conn c m)
    end.


(** ** The specification's transition table (section 4.1) *)

(** [tableAllows cur next]: the table lists [next] under [cur]. *)
Definition tableAllows (cur next : ModemStatus) : bool :=
  match cur, next with
  | StatusIdle, (StatusDialing | StatusRinging | StatusClosed) => true
  | StatusDialing, (StatusConnected | StatusIdle | StatusClosed) => true
  | StatusRinging, (StatusConnected | StatusIdle | StatusClosed) => true
  | StatusConnected, (StatusConnectedCmd | StatusIdle | StatusClosed) => true
  | StatusConnectedCmd, (StatusConnected | StatusIdle | StatusClosed) => true
  | _, _ => false
  end.

(** The result code the specification has a transition emit, if any. *)
Definition specPrints (cur next : ModemStatus) : option CmdReturn :=
  match next, cur with
  | StatusIdle, (StatusConnected | StatusConnectedCmd | StatusDialing) =>
    Some RetCodeNoCarrier
  | StatusConnected, (StatusDialing | StatusRinging | StatusConnectedCmd) =>
    Some RetCodeConnect
  | StatusConnectedCmd, StatusConnected => Some RetCodeOk
  | _, _ => None
  end.

(** Whether the specification has a transition close the connection. *)
Definition specClosesConn (cur next : ModemStatus) : bool :=
  match next, cur with
  | StatusIdle, (StatusConnected | StatusConnectedCmd | StatusRinging) => true
  | _, _ => false
  end.

(** The modem after a transition to [next] as the specification describes
    it: the listed output, the listed closing, the status scope replaced,
    the status stored. *)
Definition specTransition (next : ModemStatus) (m : Modem) : Modem :=
  let m1 :=
    match specPrints (st m) next with
    | Some r => ttyWriteStr (cr m ++ retStr m r ++ cr m) m
    | None => m
    end in
  let m2 :=
    if specClosesConn (st m) next then
      match conn m1 with
      | Some c => set_conn None (set_connClosed (connClosed m1 ++ [c])%list m1)
      | None => m1
      end
    else m1 in
  set_stdout (stdout m2 ++ [(st m, next)])%list
    (set_st next (set_stCtx (S (stCtx m2)) m2)).

(** The connection is present exactly in the statuses that carry a call. *)
Definition carriesCall (s : ModemStatus) : bool :=
  match s with
  | StatusRinging | StatusConnected | StatusConnectedCmd => true
  | _ => false
  end.

Definition connInvariant (m : Modem) : Prop :=
  conn m <> None <-> carriesCall (st m) = true.

(** A string of [n] copies of [b]. *)
Fixpoint repeatByte (b : ascii) (n : nat) : string :=
  match n with
  | O => EmptyString
  | S n' => String b (repeatByte b n')
  end.

(** ** The sub-commands of a line *)

(** [atLoop] with a record kept of what it does: the unread rest of the
    buffer when it stops, and the sub-commands dispatched with the result
    of each, in order.  [atLoopTrace_erase] shows that it computes what
    [atLoop] computes. *)
Fixpoint atLoopTrace (hook : option CommandHookType) (fuel : nat)
    (buf : string) (cmdRet : CmdReturn) (m : Modem)
  : Result (CmdReturn * bool * Modem * string * list (SubCmd * CmdReturn)) :=
  match fuel with
  | O => Ok (cmdRet, false, m, buf, [])
  | S fuel' =>
    if isEmpty buf then Ok (cmdRet, false, m, buf, [])
    else
      let '(c, e, rest) := scanSubCmd buf emptySubCmd in
      if e then Ok (cmdRet, true, m, rest, [])
      else
        rm <-! dispatch hook c m;
        if CmdReturn_eqb (fst rm) RetCodeError
        then Ok (fst rm, false, snd rm, rest, [(c, fst rm)])
        else if cmdLong c then Ok (fst rm, false, snd rm, rest, [(c, fst rm)])
        else
          r <-! atLoopTrace hook fuel' rest (fst rm) (snd rm);
          let '(cmdRet', e', m', rest', tr) := r in
          Ok (cmdRet', e', m', rest', (c, fst rm) :: tr)
  end.

(** The result of the last sub-command of a trace, [RetCodeOk] (the
    initial [cmdRet]) when there is none. *)
Definition lastResult (tr : list (SubCmd * CmdReturn)) : CmdReturn :=
  List.last (List.map snd tr) RetCodeOk.

(** The last sub-command of a trace returned the error result, or was a
    long command. *)
Definition endsChain (tr : list (SubCmd * CmdReturn)) : bool :=
  match List.last (List.map Some tr) None with
  | Some (c, r) => CmdReturn_eqb r RetCodeError || cmdLong c
  | None => false
  end.

(** A sub-command that lets the chain go on: not an error, not long. *)
Definition chains (x : SubCmd * CmdReturn) : Prop :=
  snd x <> RetCodeError /\ cmdLong (fst x) = false.

(** ** The modem and its tasks *)

(** What can take the lock: the public entry points called by the
    embedding application, an iteration of the terminal read task, and a
    dial task whose capability has returned. *)
Inductive Event : Type :=
| EvIncomingCall (c : option Conn)            (* IncomingCallSync *)
| EvAtCommand (cmd : string)                  (* ProcessAtCommandSync *)
| EvTtyWrite (s : string)                     (* TtyWriteStrSync *)
| EvClose                                     (* CloseSync *)
| EvTtyByte (b : ascii)                       (* ttyReadTask reads a byte *)
| EvDialReturn (g : nat) (out : DialOutcome). (* processDialing resumes *)

(** The modem together with the locals of its read task. *)
Record System : Type := mkSystem {
  modem : Modem;
  reader : ReadTask
}.

Definition exec (hook : option CommandHookType) (ev : Event) (s : System)
  : Result System :=
  match ev with
  | EvIncomingCall c =>
    r <-! incomingCall c (modem s); Ok (mkSystem (snd r) (reader s))
  | EvAtCommand cmd =>
    r <-! processAtCommand hook cmd (modem s); Ok (mkSystem (snd r) (reader s))
  | EvTtyWrite str => Ok (mkSystem (ttyWriteStr str (modem s)) (reader s))
  | EvClose =>
    m <-! close (modem s); Ok (mkSystem m (reader s))
  | EvTtyByte b =>
    r <-! ttyReadByte hook b (reader s) (modem s); Ok (mkSystem (snd r) (fst r))
  | EvDialReturn g out =>
    m <-! processDialing g out (modem s); Ok (mkSystem m (reader s))
  end.

(** The events of [evs] one after the other, each holding the lock for its
    whole duration. *)
Fixpoint run (hook : option CommandHookType) (evs : list Event) (s : System)
  : Result System :=
  match evs with
  | [] => Ok s
  | ev :: evs' => s1 <-! exec hook ev s; run hook evs' s1
  end.

(** From [m] to [m'] status scopes were only replaced by later ones, and
    the status changed only if the scope was replaced. *)
Definition scopeStep (m m' : Modem) : Prop :=
  (stCtx m <= stCtx m')%nat /\ (stCtx m' = stCtx m -> st m' = st m).

(** A command hook that changes the status does so through the modem's
    own operations. *)
Definition hookScoped (hook : option CommandHookType) : Prop :=
  forall (h : CommandHookType), hook = Some h ->
  forall (m : Modem) (c n : string) (a q : bool) (v : string)
         (r : CmdReturn) (m' : Modem),
    h m c n a q v = Ok (r, m') -> scopeStep m m'.

(** ** Decimal strings *)

Fixpoint allDigits (s : string) : bool :=
  match s with
  | EmptyString => true
  | String b s' => checkValidNumChar b && allDigits s'
  end.

(** The number a string of digits denotes after the digits of [n]. *)
Fixpoint decimalFrom (n : Z) (s : string) : Z :=
  match s with
  | EmptyString => n
  | String b s' => decimalFrom (n * 10 + (byteZ b - 48)) s'
  end.

Definition decimal (s : string) : Z := decimalFrom 0 s.

(** The locals of a pass as the inner loop keeps them: the numeric
    argument is made of digits, so is the assignment value of a short
    command, and nothing else is set before the command name is. *)
Definition scanInv (c : SubCmd) : Prop :=
  allDigits (cmdNum c) = true
  /\ (cmdLong c = false -> allDigits (cmdAssignVal c) = true)
  /\ (isEmpty (cmdChar c) = true -> cmdAssign c = false /\ cmdLong c = false).

(** ** Terminal input as a whole *)

(** The bytes of [s], each written to the terminal as a chunk of its own
    when echo is on. *)
Definition echoBytes (s : string) (m : Modem) : Modem :=
  if echo m
  then set_ttyOut (ttyOut m ++ List.map (fun b => String b EmptyString)
                                 (list_ascii_of_string s))%list m
  else m.

(** Every byte of [s] is printable. *)
Fixpoint allPrint (s : string) : bool :=
  match s with
  | EmptyString => true
  | String b s' => IsPrint b && allPrint s'
  end.

Definition DEL : ascii := ascii_of_nat 127.

(** Every byte of [s] is ASCII and none is a question mark. *)
Fixpoint plainNumber (s : string) : bool :=
  match s with
  | EmptyString => true
  | String b s' =>
    (byteZ b <? 128) && negb (Ascii.eqb b "?") && plainNumber s'
  end.

(** ** Well-formed modems and admissible events *)

(** Unless the modem is Closed, the connection is present exactly in the
    statuses that carry a call; and a dial task holds a scope that is not
    later than the current one, and holds the current one only while the
    status is Dialing. *)
Definition wellFormed (m : Modem) : Prop :=
  (st m = StatusClosed \/ connInvariant m)
  /\ forall (g : nat) (n : string),
       List.In (g, n) (dialTasks m) ->
       (g <= stCtx m)%nat /\ (g = stCtx m -> st m = StatusDialing).

(** What the environment may do: inject a stream that is not nil, close a
    modem that is not Closed, and let a dial task that was started resume
    with an error or with a stream that is not nil. *)
Definition allowed (ev : Event) (m : Modem) : Prop :=
  match ev with
  | EvIncomingCall c => c <> None
  | EvClose => st m <> StatusClosed
  | EvDialReturn g out =>
    (exists n : string, List.In (g, n) (dialTasks m)) /\ out <> DialConn None
  | _ => True
  end.

Fixpoint admissible (hook : option CommandHookType) (evs : list Event)
    (s : System) : Prop :=
  match evs with
  | [] => True
  | ev :: evs' =>
    allowed ev (modem s)
    /\ forall s1 : System, exec hook ev s = Ok s1 -> admissible hook evs' s1
  end.

(** A command hook that, on a well-formed modem, returns and leaves the
    modem well-formed. *)
Definition hookSafe (hook : option CommandHookType) : Prop :=
  forall h : CommandHookType, hook = Some h ->
  forall (m : Modem) (c n : string) (a q : bool) (v : string),
    wellFormed m ->
    exists (r : CmdReturn) (m' : Modem),
      h m c n a q v = Ok (r, m') /\ wellFormed m'.

(** What may follow the digits of a short command without becoming part of
    it or making the line malformed: the end of the line, or a byte that
    is not a digit and none of [?], [=], [+], [#]. *)
Definition chainBreak (rest : string) : bool :=
  match rest with
  | EmptyString => true
  | String b _ =>
    negb (checkValidNumChar b) && negb (Ascii.eqb b "?")
    && negb (Ascii.eqb b "=") && negb (Ascii.eqb b "+")
    && negb (Ascii.eqb b "#")
  end.

(** * Properties *)

(** Closed runs of the model are settled by evaluation. *)
Ltac evaluate := vm_compute; reflexivity.

(** ** Result codes *)

Lemma printRetCode_framed (ret : CmdReturn) (m : Modem) :
  ret <> RetCodeSilent ->
  printRetCode ret m = ttyWriteStr (cr m ++ retStr m ret ++ cr m) m.
Proof. destruct ret; intros H; try reflexivity; contradiction. Qed.

Lemma printRetCode_silent (m : Modem) : printRetCode RetCodeSilent m = m.
Proof. reflexivity. Qed.

Lemma cr_verbose (m : Modem) : shortForm m = false -> cr m = CRLF.
Proof. unfold cr; intros ->; reflexivity. Qed.

Lemma cr_terse (m : Modem) : shortForm m = true -> cr m = CR.
Proof. unfold cr; intros ->; reflexivity. Qed.

Lemma ModemStatus_eqb_eq (a b : ModemStatus) :
  ModemStatus_eqb a b = true <-> a = b.
Proof. destruct a, b; simpl; split; congruence. Qed.

Lemma CmdReturn_eqb_eq (a b : CmdReturn) :
  CmdReturn_eqb a b = true <-> a = b.
Proof. destruct a, b; simpl; split; congruence. Qed.

(** ** Answering a ringing call *)

(** C1 (code defect).  On a fresh modem an incoming call moves the status to
    Ringing; the command line [A] is then refused by the status check at
    the head of [processAtCommand]: the result is the error code, the
    status stays Ringing, and the terminal input [ATA<CR>] prints ERROR and
    no CONNECT. *)
Theorem C1_answer_refused_while_ringing (config : ModemConfig) (c : Conn) :
  exists m1 : Modem,
    incomingCall (Some c) (NewModem config) = Ok (true, m1)
    /\ st m1 = StatusRinging
    /\ conn m1 = Some c
    /\ processAtCommand (CommandHook config) "A" m1 = Ok (RetCodeError, m1)
    /\ exists (t : ReadTask) (m2 : Modem),
         ttyReadBytes (CommandHook config) ("ATA" ++ CR) newReadTask m1
           = Ok (t, m2)
         /\ st m2 = StatusRinging
         /\ ttyOut m2 = ["A"; "T"; "A"; CR; CRLF ++ "ERROR" ++ CRLF].
Proof.
  eexists. split; [evaluate|]. split; [evaluate|]. split; [evaluate|].
  split; [evaluate|].
  eexists _, _. split; [evaluate|]. split; evaluate.
Qed.

(** ** The connection and the status *)

(** C2 (code defect).  [setStatus] has no case for Closed, so [close] on a
    modem that holds a connection ends with status Closed and the
    connection still stored and never closed. *)
Theorem C2_close_keeps_connection (config : ModemConfig) (c : Conn) :
  exists m1 m2 : Modem,
    incomingCall (Some c) (NewModem config) = Ok (true, m1)
    /\ connInvariant m1
    /\ close m1 = Ok m2
    /\ st m2 = StatusClosed
    /\ conn m2 = Some c
    /\ connClosed m2 = []
    /\ ~ connInvariant m2.
Proof.
  eexists _, _. split; [evaluate|].
  split; [split; intros _; [reflexivity | discriminate]|].
  split; [evaluate|]. split; [evaluate|]. split; [evaluate|].
  split; [evaluate|].
  intros [H _]. cbv in H. discriminate H. discriminate.
Qed.

(** Every transition other than one into Closed keeps the invariant, when
    the connection is stored before a transition into a status that
    carries a call. *)
Lemma setStatus_keeps_connInvariant (next : ModemStatus) (m m' : Modem) :
  next <> StatusClosed ->
  (carriesCall (st m) = true \/ carriesCall next = false -> connInvariant m) ->
  (carriesCall (st m) = false -> carriesCall next = true -> conn m <> None) ->
  setStatus next m = Ok m' ->
  connInvariant m'.
Proof.
  unfold connInvariant, setStatus, closeConn.
  intros Hn Hinv Hnew.
  destruct m as [cc s g o tc [c|] cl co oc cs sr e sf dt so];
    destruct s, next; simpl in *;
    intros H; try discriminate H; try congruence;
    injection H as <-; simpl; intuition (try congruence; try discriminate).
Qed.

(** ** The transition table *)

(** The transitions [setStatus] accepts: the table of the specification and
    Idle to Idle, which the Idle case does not guard. *)
Lemma setStatus_accepts (next : ModemStatus) (m : Modem) :
  (exists p, setStatus next m = Panicked p /\ p = ErrInvalidStateTransition)
  <-> tableAllows (st m) next = false
      /\ ~ (st m = StatusIdle /\ next = StatusIdle).
Proof.
  unfold setStatus, closeConn.
  destruct m as [cc s g o tc [c|] cl co oc cs sr e sf dt so];
    destruct s, next; simpl; split;
    try (intros [p [H ->]]; discriminate H);
    try (intros [H1 H2]; try discriminate H1; exfalso; apply H2; split; reflexivity);
    try (intros _; split; [reflexivity | intros [H1 H2]; discriminate]);
    try (intros _; eexists; split; reflexivity).
Qed.

(** C3 (as stated, refuted).  Idle to Idle is not in the table, yet
    [setStatus] accepts it. *)
Lemma C3_counterexample :
  tableAllows (st (NewModem (mkConfig false None ""))) StatusIdle = false
  /\ exists m' : Modem,
       setStatus StatusIdle (NewModem (mkConfig false None "")) = Ok m'
       /\ st m' = StatusIdle.
Proof. split; [evaluate | eexists; split; evaluate]. Qed.

(** C3 (amended).  For every current status and requested status:
    if the pair is in the table, or is Idle to Idle, [setStatus] succeeds
    and does exactly what the specification lists for it (the result code
    printed, the connection closed and cleared, the status scope replaced,
    the status stored), given that a connection is stored where one is to be
    closed; for every other pair it panics with the invalid-transition
    error, whatever the rest of the modem holds. *)
Theorem C3_setStatus_table (next : ModemStatus) (m : Modem) :
  (tableAllows (st m) next = true \/ (st m = StatusIdle /\ next = StatusIdle) ->
   (specClosesConn (st m) next = true -> conn m <> None) ->
   setStatus next m = Ok (specTransition next m))
  /\ (tableAllows (st m) next = false ->
      ~ (st m = StatusIdle /\ next = StatusIdle) ->
      setStatus next m = Panicked ErrInvalidStateTransition).
Proof.
  unfold setStatus, specTransition, closeConn.
  destruct m as [cc s g o tc [c|] cl co oc cs sr e sf dt so];
    destruct s, next; simpl; split;
    try (intros _ _; reflexivity);
    try (intros [H|[H1 H2]] Hc; try discriminate; try reflexivity;
         exfalso; apply Hc; reflexivity);
    try (intros H1 H2; try discriminate H1; try reflexivity;
         exfalso; apply H2; split; reflexivity).
Qed.

Lemma C3_setStatus_table_witness :
  let m := set_conn (Some 7%nat) (set_st StatusConnected (NewModem (mkConfig false None ""))) in
  setStatus StatusIdle m = Ok (specTransition StatusIdle m)
  /\ setStatus StatusDialing m = Panicked ErrInvalidStateTransition.
Proof.
  split.
  - apply (proj1 (C3_setStatus_table StatusIdle _)).
    + left; reflexivity.
    + intros _; discriminate.
  - apply (proj2 (C3_setStatus_table StatusDialing _)).
    + reflexivity.
    + intros [H _]; discriminate H.
Defined.

(** ** S registers *)

Lemma byteOfInt_id (r : Z) : 0 <= r <= 255 -> byteOfInt r = r.
Proof. intros H. unfold byteOfInt. apply Z.mod_small. lia. Qed.

(** Assigning a register and querying it back prints the value assigned,
    for every register and every value. *)
Lemma sreg_assign_then_query (num val : string) (a q : bool) (v' : string)
    (m : Modem) :
  0 <= Atoi num <= 255 ->
  0 <= Atoi val <= 255 ->
  exists m1 : Modem,
    builtinCommand "S" num true q val m = Ok (RetCodeOk, m1)
    /\ sregs m1 !! Atoi num = Some (Atoi val)
    /\ builtinCommand "S" num false true v' m1
       = Ok (RetCodeOk, ttyWriteStr (cr m ++ fmt03d (Atoi val) ++ CRLF) m1).
Proof.
  intros Hr Hv. unfold builtinCommand. simpl.
  replace ((Atoi num <? 0) || (Atoi num >? 255)) with false
    by (symmetry; apply orb_false_iff; split; lia).
  replace ((Atoi val <? 0) || (Atoi val >? 255)) with false
    by (symmetry; apply orb_false_iff; split; lia).
  rewrite !byteOfInt_id by lia.
  eexists; split; [reflexivity|]. simpl. split.
  - apply lookup_insert_eq.
  - rewrite lookup_insert_eq. reflexivity.
Qed.

(** C5.  On a fresh modem (Idle, echo on, verbose; no command hook) the line
    [S5=42] returns OK and stores 42 in register 5, and the line [S5?] then
    returns OK and writes one chunk to the terminal: the line ending, the
    three digits 042, and carriage return and line feed. *)
Theorem C5_sreg_roundtrip (oc : bool) (cs : string) :
  exists m1 m2 : Modem,
    processAtCommand None "S5=42" (NewModem (mkConfig oc None cs))
      = Ok (RetCodeOk, m1)
    /\ sregs m1 !! 5 = Some 42
    /\ ttyOut m1 = []
    /\ processAtCommand None "S5?" m1 = Ok (RetCodeOk, m2)
    /\ ttyOut m2 = [CRLF ++ "042" ++ CRLF]
    /\ sregs m2 = sregs m1.
Proof.
  eexists _, _. split; [evaluate|]. split; [evaluate|]. split; [evaluate|].
  split; [evaluate|]. split; evaluate.
Qed.

(** ** Dialing without a capability *)

(** C6 (as stated, refuted).  On a fresh modem without an outgoing-call
    capability the dial command does not return the no-dial-tone code. *)
Lemma C6_counterexample :
  ~ exists m' : Modem,
      processCommand None "D" "" true false "5551234"
        (NewModem (mkConfig false None "")) = Ok (RetCodeNoDialtone, m').
Proof. intros [m' H]. discriminate H. Qed.

(** C6 (amended).  The dial command executed while Idle with no
    outgoing-call capability returns the no-carrier code and leaves the
    modem as it was; printed, that code is NO CARRIER (3 in terse form)
    framed by the line ending. *)
Theorem C6_dial_without_capability (num val : string) (a q : bool) (m : Modem) :
  status m = StatusIdle ->
  outgoingCall m = false ->
  processCommand None "D" num a q val m = Ok (RetCodeNoCarrier, m)
  /\ printRetCode RetCodeNoCarrier m
     = ttyWriteStr
         (cr m ++ (if shortForm m then "3" else "NO CARRIER") ++ cr m) m.
Proof.
  intros Hs Ho. unfold processCommand, builtinCommand. simpl.
  rewrite Hs, Ho. simpl. split; [reflexivity|].
  unfold printRetCode, retStr. destruct (shortForm m); reflexivity.
Qed.

Lemma C6_dial_without_capability_witness :
  processCommand None "D" "" true false "5551234"
    (NewModem (mkConfig false None ""))
  = Ok (RetCodeNoCarrier, NewModem (mkConfig false None "")).
Proof.
  apply (proj1 (C6_dial_without_capability "" "5551234" true false
                  (NewModem (mkConfig false None "")) eq_refl eq_refl)).
Defined.

(** ** Line endings *)

(** Every result code that prints is framed by the current line ending on
    both sides. *)
Lemma printRetCode_line_endings (ret : CmdReturn) (m : Modem) :
  ret <> RetCodeSilent ->
  ttyOut (printRetCode ret m)
  = app (ttyOut m)
      [(if shortForm m then CR else CRLF) ++ retStr m ret
       ++ (if shortForm m then CR else CRLF)].
Proof.
  intros H. rewrite printRetCode_framed by exact H. reflexivity.
Qed.

(** C8 (code defect).  In terse form the S-register query output starts
    with the terse line ending but ends with carriage return and line feed:
    the format string of the query has its trailer written out. *)
Theorem C8_query_trailer_in_terse_form (oc : bool) (cs : string) :
  exists m1 m2 : Modem,
    processAtCommand None "V0" (NewModem (mkConfig oc None cs))
      = Ok (RetCodeOk, m1)
    /\ shortForm m1 = true
    /\ cr m1 = CR
    /\ processAtCommand None "S5?" m1 = Ok (RetCodeOk, m2)
    /\ ttyOut m2 = [CR ++ "000" ++ CRLF]
    /\ ttyOut m2 <> [cr m1 ++ "000" ++ cr m1]
    /\ ttyOut (printRetCode RetCodeOk m2)
       = [CR ++ "000" ++ CRLF; CR ++ "0" ++ CR].
Proof.
  eexists _, _. split; [evaluate|]. split; [evaluate|]. split; [evaluate|].
  split; [evaluate|]. split; [evaluate|].
  split; [vm_compute; discriminate | evaluate].
Qed.

(** ** The edit buffer *)

Lemma IsPrint_not_control (b : ascii) :
  IsPrint b = true -> (byteZ b =? 127) = false /\ (byteZ b =? 13) = false.
Proof.
  unfold IsPrint. intros H.
  apply orb_true_iff in H as [H|H]; apply andb_true_iff in H as [H1 H2];
    split; apply Z.eqb_neq; lia.
Qed.

(** While the buffer has room a printable byte is appended, and echoed when
    echo is on. *)
Lemma ttyReadByte_buffers (hook : option CommandHookType) (b : ascii)
    (t : ReadTask) (m : Modem) :
  atFlag t = true ->
  status m <> StatusConnected ->
  status m <> StatusDialing ->
  (String.length (buffer t) < 100)%nat ->
  IsPrint b = true ->
  ttyReadByte hook b t m
  = Ok (mkReadTask (aFlag t) (atFlag t) (buffer t ++ String b EmptyString)
          (lastCmd t),
        if echo m then ttyWriteByte b m else m).
Proof.
  intros Hat Hc Hd Hlen Hp. unfold ttyReadByte.
  destruct (ModemStatus_eqb (status m) StatusConnected) eqn:E1;
    [apply ModemStatus_eqb_eq in E1; contradiction|].
  destruct (ModemStatus_eqb (status m) StatusDialing) eqn:E2;
    [apply ModemStatus_eqb_eq in E2; contradiction|].
  rewrite Hat. simpl.
  destruct (IsPrint_not_control b Hp) as [-> ->].
  rewrite Hp. apply Nat.ltb_lt in Hlen. rewrite Hlen. reflexivity.
Qed.

(** C9 (as stated, refuted).  With 100 bytes in the buffer and echo on, the
    next printable byte is not echoed: nothing is written to the terminal. *)
Lemma C9_counterexample :
  let t := mkReadTask false true (repeatByte "x" 100) "" in
  let m := NewModem (mkConfig false None "") in
  echo m = true
  /\ String.length (buffer t) = 100%nat
  /\ ~ exists (t' : ReadTask) (m' : Modem),
         ttyReadByte None "y" t m = Ok (t', m')
         /\ buffer t' = buffer t
         /\ ttyOut m' = (ttyOut m ++ ["y"])%list.
Proof.
  split; [reflexivity|]. split; [reflexivity|].
  intros [t' [m' [H [_ Ho]]]].
  vm_compute in H. injection H as <- <-. discriminate Ho.
Qed.

(** C9 (amended).  In command-entry mode, in a status other than Connected
    and Dialing, when the edit buffer already holds 100 bytes the next
    printable byte is dropped from the buffer and is not echoed, whether
    echo is on or off: the read task and the modem are left as they were. *)
Theorem C9_full_buffer_drops_without_echo (hook : option CommandHookType)
    (b : ascii) (t : ReadTask) (m : Modem) :
  atFlag t = true ->
  status m <> StatusConnected ->
  status m <> StatusDialing ->
  String.length (buffer t) = 100%nat ->
  IsPrint b = true ->
  ttyReadByte hook b t m = Ok (t, m).
Proof.
  intros Hat Hc Hd Hlen Hp. unfold ttyReadByte.
  destruct (ModemStatus_eqb (status m) StatusConnected) eqn:E1;
    [apply ModemStatus_eqb_eq in E1; contradiction|].
  destruct (ModemStatus_eqb (status m) StatusDialing) eqn:E2;
    [apply ModemStatus_eqb_eq in E2; contradiction|].
  rewrite Hat. simpl.
  destruct (IsPrint_not_control b Hp) as [-> ->].
  rewrite Hlen. reflexivity.
Qed.

Lemma C9_full_buffer_drops_without_echo_witness :
  ttyReadByte None "y" (mkReadTask false true (repeatByte "x" 100) "")
    (NewModem (mkConfig false None ""))
  = Ok (mkReadTask false true (repeatByte "x" 100) "",
        NewModem (mkConfig false None "")).
Proof.
  apply (C9_full_buffer_drops_without_echo None "y"
           (mkReadTask false true (repeatByte "x" 100) "")
           (NewModem (mkConfig false None ""))).
  - reflexivity.
  - discriminate.
  - discriminate.
  - reflexivity.
  - reflexivity.
Defined.

(** ** Omitted numeric arguments *)

Lemma Atoi_empty : Atoi "" = 0.
Proof. reflexivity. Qed.

Lemma guard_passes (m : Modem) :
  status m = StatusIdle \/ status m = StatusConnectedCmd ->
  negb (ModemStatus_eqb (status m) StatusIdle)
  && negb (ModemStatus_eqb (status m) StatusConnectedCmd) = false.
Proof. intros [-> | ->]; reflexivity. Qed.

(** C10.  A short command without digits has numeric argument 0: in a status
    that accepts command lines and with no command hook, the line [E] turns
    echo off and returns OK, the line [V] selects the terse form and returns
    OK, the line [S?] prints register 0 and returns OK; and for every
    command the executor does with an empty numeric argument exactly what it
    does with the argument [0], so the omission never makes the result an
    error. *)
Theorem C10_omitted_number_is_zero (m : Modem) :
  status m = StatusIdle \/ status m = StatusConnectedCmd ->
  processAtCommand None "E" m = Ok (RetCodeOk, set_echo false m)
  /\ processAtCommand None "V" m = Ok (RetCodeOk, set_shortForm true m)
  /\ processAtCommand None "S?" m
     = Ok (RetCodeOk,
           ttyWriteStr (cr m ++ fmt03d (default 0 (sregs m !! 0)) ++ CRLF) m)
  /\ (forall (c : string) (a q : bool) (v : string) (m' : Modem),
        processCommand None c "" a q v m' = processCommand None c "0" a q v m')
  /\ (forall (a q : bool) (v : string) (m' : Modem),
        processCommand None "E" "" a q v m' = Ok (RetCodeOk, set_echo false m')
        /\ processCommand None "V" "" a q v m'
           = Ok (RetCodeOk, set_shortForm true m')).
Proof.
  intros Hs. unfold processAtCommand. rewrite (guard_passes m Hs).
  split; [evaluate|]. split; [evaluate|]. split; [evaluate|].
  split.
  - intros c a q v m'. unfold processCommand, builtinCommand.
    change (Atoi "0") with (Atoi ""). reflexivity.
  - intros; split; evaluate.
Qed.

Lemma C10_omitted_number_is_zero_witness :
  processAtCommand None "E" (NewModem (mkConfig false None ""))
  = Ok (RetCodeOk, set_echo false (NewModem (mkConfig false None ""))).
Proof.
  apply (proj1 (C10_omitted_number_is_zero (NewModem (mkConfig false None ""))
                  (or_introl eq_refl))).
Defined.

(** ** The tokenizer *)

Ltac break_if :=
  match goal with
  | |- context [if ?b then _ else _] => destruct b eqn:?
  end.

(** The inner loop never gives back more than it was given. *)
Lemma scanSubCmd_rest_le (buf : string) :
  forall c : SubCmd,
    (String.length (snd (scanSubCmd buf c)) <= String.length buf)%nat.
Proof.
  induction buf as [|b rest IH]; intros c; simpl; [lia|].
  repeat break_if; simpl;
    try lia;
    try (match goal with
         | |- (String.length (snd (scanSubCmd rest ?c')) <= _)%nat =>
           specialize (IH c'); lia
         end).
Qed.

(** A pass of the outer loop reads at least one byte. *)
Lemma scanSubCmd_progress (b : ascii) (rest : string) :
  (String.length (snd (scanSubCmd (String b rest) emptySubCmd))
   <= String.length rest)%nat.
Proof.
  simpl. repeat break_if; simpl;
    try lia; try discriminate;
    try (match goal with
         | |- (String.length (snd (scanSubCmd rest ?c')) <= _)%nat =>
           apply scanSubCmd_rest_le
         end).
Qed.

Lemma last_cons_default {A : Type} (l : list A) (a d : A) :
  List.last (a :: l) d = List.last l a.
Proof.
  revert a d. induction l as [|b l IH]; intros a d; [reflexivity|].
  change (List.last (a :: b :: l) d) with (List.last (b :: l) d).
  rewrite (IH b d), (IH b a). reflexivity.
Qed.

Lemma last_default_irrelevant {A : Type} (l : list A) (d d' : A) :
  l <> [] -> List.last l d = List.last l d'.
Proof.
  destruct l as [|a l]; [contradiction|]. intros _.
  rewrite !last_cons_default. reflexivity.
Qed.

(** The record kept by [atLoopTrace] does not change what is computed. *)
Lemma atLoopTrace_erase (hook : option CommandHookType) (fuel : nat) :
  forall (buf : string) (cmdRet : CmdReturn) (m : Modem),
    atLoop hook fuel buf cmdRet m
    = (r <-! atLoopTrace hook fuel buf cmdRet m;
       Ok (fst (fst r))).
Proof.
  induction fuel as [|fuel IH]; intros buf cmdRet m; simpl; [reflexivity|].
  destruct (isEmpty buf); [reflexivity|].
  destruct (scanSubCmd buf emptySubCmd) as [[c e] rest].
  destruct e; [reflexivity|].
  destruct (dispatch hook c m) as [[r1 m1]|p]; simpl; [|reflexivity].
  destruct (CmdReturn_eqb r1 RetCodeError); [reflexivity|].
  destruct (cmdLong c); [reflexivity|].
  rewrite IH.
  destruct (atLoopTrace hook fuel rest r1 m1) as [[[[[r2 e2] m2] rest2] tr2]|p];
    reflexivity.
Qed.

(** What the outer loop does, read off its record: the value it leaves in
    [cmdRet] is the result of the last sub-command dispatched; every
    sub-command before the last one neither returned the error result nor
    was long; when the loop stops with [e] unset, the last sub-command
    returned the error result or was long, or the buffer is empty; when it
    stops with [e] set, no sub-command returned the error result. *)
Lemma atLoopTrace_shape (hook : option CommandHookType) (fuel : nat) :
  forall (buf : string) (cmdRet : CmdReturn) (m : Modem)
         (r : CmdReturn) (e : bool) (m' : Modem) (rest : string)
         (tr : list (SubCmd * CmdReturn)),
    (String.length buf <= fuel)%nat ->
    atLoopTrace hook fuel buf cmdRet m = Ok (r, e, m', rest, tr) ->
    r = List.last (List.map snd tr) cmdRet
    /\ Forall chains (List.removelast tr)
    /\ (e = false -> endsChain tr = true \/ rest = "")
    /\ (e = true -> Forall chains tr).
Proof.
  induction fuel as [|fuel IH]; intros buf cmdRet m r e m' rest tr Hlen; simpl.
  - intros H. injection H as <- <- <- <- <-.
    destruct buf; [|simpl in Hlen; lia].
    split; [reflexivity|]. split; [constructor|].
    split; [intros _; right; reflexivity | discriminate].
  - destruct buf as [|b buf'] eqn:Hbuf.
    + simpl. intros H. injection H as <- <- <- <- <-.
      split; [reflexivity|]. split; [constructor|].
      split; [intros _; right; reflexivity | discriminate].
    + change (isEmpty (String b buf')) with false. cbv iota.
      pose proof (scanSubCmd_progress b buf') as Hprog.
      destruct (scanSubCmd (String b buf') emptySubCmd) as [[c e0] rest0].
      simpl in Hprog.
      destruct e0.
      * intros H. injection H as <- <- <- <- <-.
        split; [reflexivity|]. split; [constructor|].
        split; [discriminate | intros _; constructor].
      * destruct (dispatch hook c m) as [[r1 m1]|p]; simpl; [|discriminate].
        destruct (CmdReturn_eqb r1 RetCodeError) eqn:Herr.
        { intros H. injection H as <- <- <- <- <-.
          split; [reflexivity|]. split; [constructor|].
          split; [|discriminate].
          intros _. left. unfold endsChain. simpl. rewrite Herr. reflexivity. }
        destruct (cmdLong c) eqn:Hlong.
        { intros H. injection H as <- <- <- <- <-.
          split; [reflexivity|]. split; [constructor|].
          split; [|discriminate].
          intros _. left. unfold endsChain. simpl. rewrite Herr, Hlong.
          reflexivity. }
        destruct (atLoopTrace hook fuel rest0 r1 m1)
          as [[[[[r2 e2] m2] rest2] tr2]|p] eqn:Hrec; simpl; [|discriminate].
        intros H. injection H as <- <- <- <- <-.
        assert (Hc : chains (c, r1)).
        { split; simpl; [|exact Hlong].
          intros ->. discriminate Herr. }
        destruct (IH rest0 r1 m1 r2 e2 m2 rest2 tr2) as (H1 & H2 & H3 & H4);
          [simpl in Hlen; lia | exact Hrec |].
        split; [|split; [|split]].
        -- simpl List.map. rewrite last_cons_default. exact H1.
        -- destruct tr2 as [|x tr2']; [constructor|].
           change (List.removelast ((c, r1) :: x :: tr2'))
             with ((c, r1) :: List.removelast (x :: tr2')).
           constructor; assumption.
        -- intros He. destruct (H3 He) as [H|H]; [left|right; exact H].
           unfold endsChain in H |- *.
           change (List.map Some ((c, r1) :: tr2))
             with (Some (c, r1) :: List.map Some tr2).
           rewrite last_cons_default.
           destruct tr2 as [|x tr2']; [discriminate H|].
           rewrite (last_default_irrelevant (List.map Some (x :: tr2'))
                      (Some (c, r1)) None) by discriminate.
           exact H.
        -- intros He. constructor; [exact Hc | exact (H4 He)].
Qed.

(** The bound on the passes of the outer loop is never what stops it: any
    larger bound gives the same outcome. *)
Lemma atLoop_fuel (hook : option CommandHookType) (fuel : nat) :
  forall (extra : nat) (buf : string) (cmdRet : CmdReturn) (m : Modem),
    (String.length buf <= fuel)%nat ->
    atLoop hook (fuel + extra) buf cmdRet m = atLoop hook fuel buf cmdRet m.
Proof.
  induction fuel as [|fuel IH]; intros extra buf cmdRet m Hlen.
  - destruct buf; [|simpl in Hlen; lia].
    destruct extra; reflexivity.
  - destruct buf as [|b buf']; [reflexivity|].
    change (atLoop hook (S fuel + extra) (String b buf') cmdRet m)
      with (atLoop hook (S (fuel + extra)) (String b buf') cmdRet m).
    cbn [atLoop isEmpty].
    pose proof (scanSubCmd_progress b buf') as Hprog.
    destruct (scanSubCmd (String b buf') emptySubCmd) as [[c e] rest].
    simpl in Hprog.
    destruct e; [reflexivity|].
    destruct (dispatch hook c m) as [[r1 m1]|p]; simpl; [|reflexivity].
    destruct (CmdReturn_eqb r1 RetCodeError); [reflexivity|].
    destruct (cmdLong c); [reflexivity|].
    apply IH. simpl in Hlen. lia.
Qed.

(** C7 (as stated, refuted).  On the line [E0!] the only sub-command
    executed, [E0], returns OK and takes effect (echo is turned off), no
    sub-command returns the error result, and yet the line reports the
    error result: the byte [!] violates the grammar. *)
Lemma C7_counterexample :
  let m0 := NewModem (mkConfig false None "") in
  exists (m' : Modem) (c : SubCmd),
    atLoopTrace None (String.length "E0!") "E0!" RetCodeOk m0
      = Ok (RetCodeOk, true, m', "", [(c, RetCodeOk)])
    /\ echo m' = false
    /\ processAtCommand None "E0!" m0 = Ok (RetCodeError, m')
    /\ lastResult [(c, RetCodeOk)] <> RetCodeError.
Proof.
  eexists _, _. split; [evaluate|]. split; [evaluate|]. split; [evaluate|].
  vm_compute. discriminate.
Qed.

(** C7 (amended).  A command line submitted in a status other than Idle and
    ConnectedCmd gets the error result and nothing is executed.  Otherwise:
    if the tokenizer meets a byte that violates the grammar the line gets
    the error result, and no sub-command executed before that point
    returned it; if not, the line gets the result of the last sub-command
    executed (OK when none was).  In both cases every sub-command before
    the last one neither returned the error result nor was a long command,
    so the chain stops at the first error and after a long command; and a
    chain that stops for neither reason nor for a grammar violation has
    read the whole line.  A panic of a sub-command is the panic of the
    line. *)
Theorem C7_line_result (hook : option CommandHookType) (cmd : string)
    (m : Modem) :
  (status m <> StatusIdle -> status m <> StatusConnectedCmd ->
   processAtCommand hook cmd m = Ok (RetCodeError, m))
  /\ (status m = StatusIdle \/ status m = StatusConnectedCmd ->
      match atLoopTrace hook (String.length cmd) cmd RetCodeOk m with
      | Panicked p => processAtCommand hook cmd m = Panicked p
      | Ok (r, e, m', rest, tr) =>
        processAtCommand hook cmd m
        = Ok (if e then RetCodeError else lastResult tr, m')
        /\ Forall chains (List.removelast tr)
        /\ (e = false -> endsChain tr = true \/ rest = "")
        /\ (e = true -> Forall chains tr)
      end).
Proof.
  split.
  - intros H1 H2. unfold processAtCommand.
    destruct (ModemStatus_eqb (status m) StatusIdle) eqn:E1;
      [apply ModemStatus_eqb_eq in E1; contradiction|].
    destruct (ModemStatus_eqb (status m) StatusConnectedCmd) eqn:E2;
      [apply ModemStatus_eqb_eq in E2; contradiction|].
    reflexivity.
  - intros Hs. unfold processAtCommand. rewrite (guard_passes m Hs).
    rewrite atLoopTrace_erase.
    destruct (atLoopTrace hook (String.length cmd) cmd RetCodeOk m)
      as [[[[[r e] m'] rest] tr]|p] eqn:Htr; simpl; [|reflexivity].
    destruct (atLoopTrace_shape hook _ _ _ _ _ _ _ _ _ (Nat.le_refl _) Htr)
      as (H1 & H2 & H3 & H4).
    split; [|split; [exact H2 | split; [exact H3 | exact H4]]].
    unfold lastResult. rewrite <- H1. reflexivity.
Qed.

Lemma C7_line_result_witness :
  processAtCommand None "E0V0S?"
    (set_st StatusRinging (NewModem (mkConfig false None "")))
  = Ok (RetCodeError, set_st StatusRinging (NewModem (mkConfig false None "")))
  /\ match atLoopTrace None (String.length "E0V0S?") "E0V0S?" RetCodeOk
             (NewModem (mkConfig false None "")) with
     | Panicked p =>
       processAtCommand None "E0V0S?" (NewModem (mkConfig false None ""))
       = Panicked p
     | Ok (r, e, m', rest, tr) =>
       processAtCommand None "E0V0S?" (NewModem (mkConfig false None ""))
       = Ok (if e then RetCodeError else lastResult tr, m')
       /\ Forall chains (List.removelast tr)
       /\ (e = false -> endsChain tr = true \/ rest = "")
       /\ (e = true -> Forall chains tr)
     end.
Proof.
  split.
  - apply (proj1 (C7_line_result None "E0V0S?"
                    (set_st StatusRinging (NewModem (mkConfig false None ""))))).
    + discriminate.
    + discriminate.
  - apply (proj2 (C7_line_result None "E0V0S?"
                    (NewModem (mkConfig false None "")))).
    left. reflexivity.
Defined.

(** ** Status scopes *)

Lemma scopeStep_refl (m : Modem) : scopeStep m m.
Proof. split; auto. Qed.

Lemma scopeStep_trans (m1 m2 m3 : Modem) :
  scopeStep m1 m2 -> scopeStep m2 m3 -> scopeStep m1 m3.
Proof.
  unfold scopeStep. intros [H1 H2] [H3 H4]. split; [lia|].
  intros H. rewrite H4 by lia. apply H2. lia.
Qed.

Lemma scopeStep_same (m m' : Modem) :
  stCtx m' = stCtx m -> st m' = st m -> scopeStep m m'.
Proof. unfold scopeStep. intros -> ->. split; auto. Qed.

(** A transition cancels the scope that was current. *)
Lemma setStatus_scope (next : ModemStatus) (m m' : Modem) :
  setStatus next m = Ok m' -> stCtx m' = S (stCtx m) /\ st m' = next.
Proof.
  unfold setStatus, closeConn.
  destruct m as [cc s g o tc [c|] cl co oc cs sr e sf dt so];
    destruct s, next; simpl; intros H; try discriminate H;
    injection H as <-; split; reflexivity.
Qed.

Lemma setStatus_scopeStep (next : ModemStatus) (m m' : Modem) :
  setStatus next m = Ok m' -> scopeStep m m'.
Proof.
  intros H. apply setStatus_scope in H as [H _].
  unfold scopeStep. rewrite H. split; lia.
Qed.

Lemma builtinCommand_scopeStep (c n : string) (a q : bool) (v : string)
    (m m' : Modem) (r : CmdReturn) :
  builtinCommand c n a q v m = Ok (r, m') -> scopeStep m m'.
Proof.
  unfold builtinCommand.
  repeat break_if;
    try (intros H; injection H as <- <-;
         apply scopeStep_same; reflexivity);
    destruct (setStatus _ m) as [m1|p] eqn:Hs; simpl;
    intros H; try discriminate H; injection H as <- <-;
    apply setStatus_scope in Hs as [Hs _];
    unfold scopeStep; simpl; rewrite ?Hs; split; lia.
Qed.

Lemma processCommand_scopeStep (hook : option CommandHookType)
    (c n : string) (a q : bool) (v : string) (m m' : Modem) (r : CmdReturn) :
  hookScoped hook ->
  processCommand hook c n a q v m = Ok (r, m') -> scopeStep m m'.
Proof.
  intros Hh. unfold processCommand. destruct hook as [h|].
  - destruct (h m c n a q v) as [[r1 m1]|p] eqn:Hc; simpl; [|discriminate].
    pose proof (Hh h eq_refl _ _ _ _ _ _ _ _ Hc) as H1.
    destruct r1; try (intros H; injection H as <- <-; exact H1).
    intros H. apply builtinCommand_scopeStep in H.
    eapply scopeStep_trans; eassumption.
  - apply builtinCommand_scopeStep.
Qed.

Lemma atLoop_scopeStep (hook : option CommandHookType) (fuel : nat) :
  hookScoped hook ->
  forall (buf : string) (cmdRet r : CmdReturn) (e : bool) (m m' : Modem),
    atLoop hook fuel buf cmdRet m = Ok (r, e, m') -> scopeStep m m'.
Proof.
  intros Hh. induction fuel as [|fuel IH]; intros buf cmdRet r e m m'; simpl.
  - intros H. injection H as <- <- <-. apply scopeStep_refl.
  - destruct (isEmpty buf);
      [intros H; injection H as <- <- <-; apply scopeStep_refl|].
    destruct (scanSubCmd buf emptySubCmd) as [[c e0] rest].
    destruct e0; [intros H; injection H as <- <- <-; apply scopeStep_refl|].
    unfold dispatch.
    destruct (processCommand hook _ _ _ _ _ m) as [[r1 m1]|p] eqn:Hc;
      simpl; [|discriminate].
    apply processCommand_scopeStep in Hc; [|exact Hh].
    destruct (CmdReturn_eqb r1 RetCodeError);
      [intros H; injection H as <- <- <-; exact Hc|].
    destruct (cmdLong c); [intros H; injection H as <- <- <-; exact Hc|].
    intros H. apply IH in H. eapply scopeStep_trans; eassumption.
Qed.

Lemma processAtCommand_scopeStep (hook : option CommandHookType)
    (cmd : string) (m m' : Modem) (r : CmdReturn) :
  hookScoped hook ->
  processAtCommand hook cmd m = Ok (r, m') -> scopeStep m m'.
Proof.
  intros Hh. unfold processAtCommand.
  break_if; [intros H; injection H as <- <-; apply scopeStep_refl|].
  destruct (atLoop hook _ cmd RetCodeOk m) as [[[r1 e1] m1]|p] eqn:Hl;
    simpl; [|discriminate].
  intros H. injection H as <- <-.
  eapply atLoop_scopeStep; eassumption.
Qed.

Lemma submit_scopeStep (hook : option CommandHookType) (cmd : string)
    (m m' : Modem) :
  hookScoped hook -> submit hook cmd m = Ok m' -> scopeStep m m'.
Proof.
  intros Hh. unfold submit.
  destruct (processAtCommand hook cmd (ttyWriteStr CR m)) as [[r1 m1]|p] eqn:Hp;
    simpl; [|discriminate].
  intros H. injection H as <-.
  apply processAtCommand_scopeStep in Hp; [|exact Hh].
  destruct Hp as [H1 H2]. unfold scopeStep.
  destruct r1; simpl in *; split; auto.
Qed.

Lemma ttyReadByte_scopeStep (hook : option CommandHookType) (b : ascii)
    (t t' : ReadTask) (m m' : Modem) :
  hookScoped hook ->
  ttyReadByte hook b t m = Ok (t', m') -> scopeStep m m'.
Proof.
  intros Hh. unfold ttyReadByte, ttyWriteByte.
  repeat break_if;
    try (destruct (conn m); intros H; injection H as <- <-;
         apply scopeStep_same; reflexivity);
    try (intros H; injection H as <- <-; apply scopeStep_same; reflexivity);
    try (destruct (setStatus StatusIdle m) as [m1|p] eqn:Hs; simpl;
         intros H; [|discriminate H]; injection H as <- <-;
         eapply setStatus_scopeStep; exact Hs);
    try (destruct (submit hook _ _) as [m1|p] eqn:Hs; simpl;
         intros H; [|discriminate H]; injection H as <- <-;
         apply submit_scopeStep in Hs; [|exact Hh];
         destruct Hs as [H1 H2]; split; simpl in *; auto).
Qed.

Lemma processDialing_scopeStep (g : nat) (out : DialOutcome) (m m' : Modem) :
  processDialing g out m = Ok m' -> scopeStep m m'.
Proof.
  unfold processDialing. destruct (ctxErr g m).
  - destruct out as [[c|]|]; intros H; try discriminate H;
      injection H as <-; apply scopeStep_same; reflexivity.
  - destruct out as [c|]; intros H.
    + apply setStatus_scopeStep in H. destruct H as [H1 H2].
      split; simpl in *; auto.
    + eapply setStatus_scopeStep; exact H.
Qed.

Lemma close_scopeStep (m m' : Modem) : close m = Ok m' -> scopeStep m m'.
Proof.
  unfold close. destruct (setStatus StatusClosed m) as [m1|p] eqn:Hs;
    simpl; intros H; [|discriminate H]. injection H as <-.
  apply setStatus_scopeStep in Hs. destruct Hs as [H1 H2].
  split; simpl in *; auto.
Qed.

Lemma incomingCall_scopeStep (c : option Conn) (m m' : Modem) (ok : bool) :
  incomingCall c m = Ok (ok, m') -> scopeStep m m'.
Proof.
  unfold incomingCall.
  destruct (status m);
    try (intros H; injection H as <- <-; apply scopeStep_refl).
  destruct (setStatus StatusRinging m) as [m1|p] eqn:Hs;
    simpl; intros H; [|discriminate H]. injection H as <- <-.
  apply setStatus_scopeStep in Hs. destruct Hs as [H1 H2].
  split; simpl in *; auto.
Qed.

Lemma exec_scopeStep (hook : option CommandHookType) (ev : Event)
    (s s' : System) :
  hookScoped hook ->
  exec hook ev s = Ok s' -> scopeStep (modem s) (modem s').
Proof.
  intros Hh. destruct ev as [c|cmd|str| |b|g out]; simpl.
  - destruct (incomingCall c (modem s)) as [[ok m1]|p] eqn:H1; simpl;
      intros H; [|discriminate H]. injection H as <-.
    eapply incomingCall_scopeStep; exact H1.
  - destruct (processAtCommand hook cmd (modem s)) as [[r m1]|p] eqn:H1;
      simpl; intros H; [|discriminate H]. injection H as <-.
    eapply processAtCommand_scopeStep; eassumption.
  - intros H. injection H as <-. apply scopeStep_same; reflexivity.
  - destruct (close (modem s)) as [m1|p] eqn:H1; simpl;
      intros H; [|discriminate H]. injection H as <-.
    apply close_scopeStep. exact H1.
  - destruct (ttyReadByte hook b (reader s) (modem s)) as [[t1 m1]|p] eqn:H1;
      simpl; intros H; [|discriminate H]. injection H as <-.
    eapply ttyReadByte_scopeStep; eassumption.
  - destruct (processDialing g out (modem s)) as [m1|p] eqn:H1; simpl;
      intros H; [|discriminate H]. injection H as <-.
    eapply processDialing_scopeStep; exact H1.
Qed.

(** Over any run, status scopes are only replaced by later ones and the
    status changes only when the scope is replaced. *)
Lemma run_scopeStep (hook : option CommandHookType) (evs : list Event) :
  hookScoped hook ->
  forall s s' : System,
    run hook evs s = Ok s' -> scopeStep (modem s) (modem s').
Proof.
  intros Hh. induction evs as [|ev evs IH]; intros s s'; simpl.
  - intros H. injection H as <-. apply scopeStep_refl.
  - destruct (exec hook ev s) as [s1|p] eqn:H1; simpl; [|discriminate].
    intros H. apply IH in H. apply exec_scopeStep in H1; [|exact Hh].
    eapply scopeStep_trans; eassumption.
Qed.

(** ** The dial race *)

(** The D command, accepted, hands the dial task the scope created by the
    transition to Dialing. *)
Lemma dial_hands_over_scope (n : string) (a q : bool) (v : string)
    (m : Modem) :
  status m = StatusIdle ->
  outgoingCall m = true ->
  exists m' : Modem,
    processCommand None "D" n a q v m = Ok (RetCodeSilent, m')
    /\ st m' = StatusDialing
    /\ dialTasks m' = app (dialTasks m) [(stCtx m', v)]
    /\ ctxErr (stCtx m') m' = ctxCancelled m'.
Proof.
  intros Hs Ho. unfold processCommand, builtinCommand. simpl.
  rewrite Hs, Ho. simpl. unfold setStatus. unfold status in Hs. rewrite Hs.
  simpl. eexists. split; [reflexivity|]. simpl.
  split; [reflexivity|]. split; [reflexivity|].
  unfold ctxErr. simpl. rewrite Nat.ltb_irrefl. reflexivity.
Qed.

Lemma run_app (hook : option CommandHookType) (e1 e2 : list Event) :
  forall s : System,
    run hook (e1 ++ e2) s = (s1 <-! run hook e1 s; run hook e2 s1).
Proof.
  induction e1 as [|ev e1 IH]; intros s; simpl; [reflexivity|].
  destruct (exec hook ev s) as [s1|p]; simpl; [apply IH|reflexivity].
Qed.

(** While the status is Dialing, a lock holder that leaves it Dialing has
    replaced neither the status scope nor the lifetime scope: command
    lines are refused by the guard, incoming calls are refused as busy, a
    typed byte and a close leave Dialing, and a dial task either finds its
    scope cancelled or leaves Dialing. *)
Lemma exec_keeps_dialing (hook : option CommandHookType) (ev : Event)
    (s s' : System) :
  st (modem s) = StatusDialing ->
  exec hook ev s = Ok s' ->
  st (modem s') = StatusDialing ->
  stCtx (modem s') = stCtx (modem s)
  /\ ctxCancelled (modem s') = ctxCancelled (modem s).
Proof.
  intros Hd. destruct s as [m t]. cbn [modem reader] in *.
  destruct ev as [c|cmd|str| |b|g out]; cbn [exec modem reader].
  - unfold incomingCall, status. rewrite Hd. cbn [bindR snd].
    intros H _. injection H as <-. split; reflexivity.
  - unfold processAtCommand, status. rewrite Hd. cbn.
    intros H _. injection H as <-. split; reflexivity.
  - intros H _. injection H as <-. split; reflexivity.
  - unfold close.
    destruct (setStatus StatusClosed m) as [m1|p] eqn:Hs; cbn [bindR];
      intros H; [|discriminate H]. injection H as <-. cbn [modem].
    apply setStatus_scope in Hs as [_ Hs]. cbn. rewrite Hs. discriminate.
  - unfold ttyReadByte, status. rewrite Hd. cbn.
    destruct (setStatus StatusIdle m) as [m1|p] eqn:Hs; cbn [bindR];
      intros H; [|discriminate H]. injection H as <-. cbn [modem snd].
    apply setStatus_scope in Hs as [_ Hs]. rewrite Hs. discriminate.
  - unfold processDialing. destruct (ctxErr g m).
    + destruct out as [[c|]|]; cbn [bindR]; intros H; try discriminate H;
        injection H as <-; intros _; split; reflexivity.
    + destruct out as [c|];
        [destruct (setStatus StatusConnected (set_conn c m)) as [m1|p] eqn:Hs
        |destruct (setStatus StatusIdle m) as [m1|p] eqn:Hs];
        cbn [bindR]; intros H; try discriminate H; injection H as <-;
        cbn [modem]; apply setStatus_scope in Hs as [_ Hs]; rewrite Hs;
        discriminate.
Qed.

(** A run during which the status is Dialing after every event has
    replaced no scope. *)
Lemma dialing_throughout (hook : option CommandHookType) (evs : list Event) :
  forall s0 s : System,
    st (modem s0) = StatusDialing ->
    run hook evs s0 = Ok s ->
    (forall (e1 e2 : list Event) (sm : System),
        evs = app e1 e2 -> run hook e1 s0 = Ok sm ->
        st (modem sm) = StatusDialing) ->
    stCtx (modem s) = stCtx (modem s0)
    /\ ctxCancelled (modem s) = ctxCancelled (modem s0)
    /\ st (modem s) = StatusDialing.
Proof.
  induction evs as [|ev evs IH]; intros s0 s Hd Hrun Hall.
  - injection Hrun as <-. auto.
  - cbn [run] in Hrun.
    destruct (exec hook ev s0) as [s1|p] eqn:He; cbn [bindR] in Hrun;
      [|discriminate Hrun].
    assert (Hd1 : st (modem s1) = StatusDialing).
    { apply (Hall [ev] evs s1 eq_refl). cbn [run]. rewrite He. reflexivity. }
    destruct (exec_keeps_dialing hook ev s0 s1 Hd He Hd1) as [Hg Hc].
    destruct (IH s1 s Hd1 Hrun) as (Hg' & Hc' & Hd').
    { intros e1 e2 sm -> Hsm. apply (Hall (ev :: e1) e2 sm eq_refl).
      cbn [run]. rewrite He. exact Hsm. }
    repeat split; [congruence|congruence|exact Hd'].
Qed.

(** C4.  A dial task holds the status scope that was current when the
    status became Dialing, and anything may take the lock, any number of
    times, before the task resumes (command hooks changing the status only
    through the modem's operations).  If at any moment of that run the
    status was not Dialing, then whatever happened afterwards, a new dial
    included, the task finds its scope cancelled: on a failed call it
    leaves the modem as it is, and on a successful one it only closes the
    stream it obtained, so that the connection, the status, the status
    scope, the terminal output and the transition log are untouched.  If
    instead the status was Dialing after every event of the run and the
    lifetime scope was live at its start, the scope is still live: a failed
    call prints NO CARRIER and moves to Idle, and a successful one stores
    the stream as the connection, prints the connect result and moves to
    Connected. *)
Theorem C4_dial_race (hook : option CommandHookType) (evs : list Event)
    (s0 s : System) :
  hookScoped hook ->
  st (modem s0) = StatusDialing ->
  run hook evs s0 = Ok s ->
  (forall (e1 e2 : list Event) (sm : System),
      evs = app e1 e2 -> run hook e1 s0 = Ok sm ->
      st (modem sm) <> StatusDialing ->
      ctxErr (stCtx (modem s0)) (modem s) = true
      /\ processDialing (stCtx (modem s0)) DialErr (modem s) = Ok (modem s)
      /\ forall c : Conn,
           processDialing (stCtx (modem s0)) (DialConn (Some c)) (modem s)
           = Ok (set_connClosed (app (connClosed (modem s)) [c]) (modem s)))
  /\ ((forall (e1 e2 : list Event) (sm : System),
          evs = app e1 e2 -> run hook e1 s0 = Ok sm ->
          st (modem sm) = StatusDialing) ->
      ctxCancelled (modem s0) = false ->
      ctxErr (stCtx (modem s0)) (modem s) = false
      /\ processDialing (stCtx (modem s0)) DialErr (modem s)
         = Ok (commitStatus StatusDialing StatusIdle
                 (printRetCode RetCodeNoCarrier (modem s)))
      /\ forall c : option Conn,
           processDialing (stCtx (modem s0)) (DialConn c) (modem s)
           = Ok (commitStatus StatusDialing StatusConnected
                   (printRetCode RetCodeConnect (set_conn c (modem s))))).
Proof.
  intros Hh Hd Hrun. split.
  - intros e1 e2 sm -> H1 Hne.
    rewrite run_app, H1 in Hrun. cbn [bindR] in Hrun.
    destruct (run_scopeStep hook e1 Hh s0 sm H1) as [Hle1 Hsame1].
    destruct (run_scopeStep hook e2 Hh sm s Hrun) as [Hle2 _].
    assert (Hlt : (stCtx (modem s0) < stCtx (modem sm))%nat).
    { destruct (Nat.eq_dec (stCtx (modem sm)) (stCtx (modem s0))) as [E|E];
        [|lia].
      exfalso. apply Hne. rewrite (Hsame1 E). exact Hd. }
    assert (E : ctxErr (stCtx (modem s0)) (modem s) = true).
    { unfold ctxErr. apply orb_true_iff. left. apply Nat.ltb_lt. lia. }
    split; [exact E|]. unfold processDialing. rewrite E.
    split; [reflexivity|]. intros c. reflexivity.
  - intros Hall Hlive.
    destruct (dialing_throughout hook evs s0 s Hd Hrun Hall)
      as (Hg & Hc & Hst).
    assert (E : ctxErr (stCtx (modem s0)) (modem s) = false).
    { unfold ctxErr. rewrite Hg, Hc, Hlive, Nat.ltb_irrefl, andb_false_r.
      reflexivity. }
    split; [exact E|]. unfold processDialing. rewrite E.
    unfold setStatus. simpl. rewrite Hst. split; [reflexivity|].
    intros c. reflexivity.
Qed.

Lemma C4_dial_race_witness :
  exists s0 s s' : System,
    run None [EvAtCommand "D111"]
      (mkSystem (NewModem (mkConfig true None "")) newReadTask) = Ok s0
    /\ run None [EvTtyByte "x"; EvAtCommand "D222"] s0 = Ok s
    /\ st (modem s) = StatusDialing
    /\ processDialing (stCtx (modem s0)) (DialConn (Some 7%nat)) (modem s)
       = Ok (set_connClosed (app (connClosed (modem s)) [7%nat]) (modem s))
    /\ run None [EvTtyWrite "hi"; EvIncomingCall (Some 3%nat); EvAtCommand "H"]
         s0 = Ok s'
    /\ processDialing (stCtx (modem s0)) (DialConn (Some 7%nat)) (modem s')
       = Ok (commitStatus StatusDialing StatusConnected
               (printRetCode RetCodeConnect
                  (set_conn (Some 7%nat) (modem s')))).
Proof.
  assert (Hh : hookScoped None) by (intros h H; discriminate H).
  eexists _, _, _.
  split; [evaluate|]. split; [evaluate|]. split; [evaluate|].
  split; [|split; [evaluate|]].
  - refine (proj2 (proj2
              (proj1 (C4_dial_race None [EvTtyByte "x"; EvAtCommand "D222"]
                        _ _ Hh _ _)
                 [EvTtyByte "x"] [EvAtCommand "D222"] _ eq_refl _ _))
              7%nat).
    + evaluate.
    + evaluate.
    + evaluate.
    + vm_compute. discriminate.
  - refine (proj2 (proj2
              (proj2 (C4_dial_race None
                        [EvTtyWrite "hi"; EvIncomingCall (Some 3%nat);
                         EvAtCommand "H"] _ _ Hh _ _) _ _))
              (Some 7%nat)).
    + evaluate.
    + evaluate.
    + intros e1 e2 sm E H.
      destruct e1 as [|a1 [|a2 [|a3 [|a4 e1]]]]; cbn [app] in E.
      * injection H as <-. reflexivity.
      * injection E as <- _. vm_compute in H. injection H as <-. reflexivity.
      * injection E as <- <- _. vm_compute in H. injection H as <-.
        reflexivity.
      * injection E as <- <- <- _. vm_compute in H. injection H as <-.
        reflexivity.
      * discriminate E.
    + reflexivity.
Defined.

(** * Further properties of the code *)

(** ** The tokenizer *)

(** X1.  The outer loop of [processAtCommand] terminates: a pass over a
    non-empty buffer reads at least one byte that no [UnreadByte] gives
    back, so the loop is over after at most as many passes as the line has
    bytes; allowing more passes changes nothing. *)
Theorem X1_tokenizer_terminates (hook : option CommandHookType) (b : ascii)
    (rest : string) (extra : nat) (cmdRet : CmdReturn) (m : Modem) :
  (String.length (snd (scanSubCmd (String b rest) emptySubCmd))
   < String.length (String b rest))%nat
  /\ atLoop hook (String.length (String b rest) + extra) (String b rest)
       cmdRet m
     = atLoop hook (String.length (String b rest)) (String b rest) cmdRet m.
Proof.
  split.
  - pose proof (scanSubCmd_progress b rest) as H.
    change (String.length (String b rest)) with (S (String.length rest)).
    lia.
  - apply atLoop_fuel. lia.
Qed.

(** X2.  A line whose first byte cannot start a command name (it is not a
    letter, not [+] or [#], and not an [&] with something after it) is
    rejected with the error result and nothing is executed, whatever
    follows that byte. *)
Theorem X2_bad_first_byte_rejected (hook : option CommandHookType)
    (b : ascii) (rest : string) (m : Modem) :
  status m = StatusIdle \/ status m = StatusConnectedCmd ->
  checkValidCmdChar b = false ->
  Ascii.eqb b "+" = false ->
  Ascii.eqb b "#" = false ->
  Ascii.eqb b "&" = false \/ rest = "" ->
  processAtCommand hook (String b rest) m = Ok (RetCodeError, m).
Proof.
  intros Hs Hv Hp Hh Ha. unfold processAtCommand.
  rewrite (guard_passes m Hs).
  cbn [String.length atLoop isEmpty scanSubCmd emptySubCmd cmdChar cmdAssign
       cmdLong negb].
  rewrite Hp, Hh, Hv. cbn [orb].
  destruct (Ascii.eqb b "?"); [reflexivity|].
  destruct (Ascii.eqb b "="); [reflexivity|].
  cbn [isEmpty orb].
  destruct Ha as [Ha | ->].
  - rewrite Ha. reflexivity.
  - cbn [String.length]. rewrite andb_false_r. reflexivity.
Qed.

Lemma X2_bad_first_byte_rejected_witness :
  processAtCommand None "?E0" (NewModem (mkConfig false None ""))
  = Ok (RetCodeError, NewModem (mkConfig false None "")).
Proof.
  apply (X2_bad_first_byte_rejected None "?" "E0"
           (NewModem (mkConfig false None ""))).
  - left; reflexivity.
  - reflexivity.
  - reflexivity.
  - reflexivity.
  - left; reflexivity.
Defined.

Lemma isEmpty_append_byte (s : string) (b : ascii) :
  isEmpty (s ++ stringOfByte b) = false.
Proof.
  destruct s; [|reflexivity]. unfold stringOfByte. simpl.
  destruct (byteZ b <? 128); reflexivity.
Qed.

Lemma allDigits_append_byte (s : string) (b : ascii) :
  allDigits s = true -> checkValidNumChar b = true ->
  allDigits (s ++ stringOfByte b) = true.
Proof.
  intros Hs Hb.
  assert (Hlt : (byteZ b <? 128) = true).
  { unfold checkValidNumChar in Hb. apply andb_true_iff in Hb as [_ Hb].
    apply Z.ltb_lt. apply Z.leb_le in Hb. lia. }
  unfold stringOfByte. rewrite Hlt.
  induction s as [|a s IH]; simpl in *.
  - rewrite Hb. reflexivity.
  - apply andb_true_iff in Hs as [Ha Hs]. rewrite Ha. simpl. apply IH. exact Hs.
Qed.

Lemma scanInv_empty : scanInv emptySubCmd.
Proof. repeat split. Qed.

Ltac scan_done Hinv :=
  let H := fresh "Hscan" in
  let He := fresh "Herr" in
  intros H He; injection H as <- <- <-;
  first [discriminate He | split; [exact Hinv|]].

Ltac scan_step IH :=
  let H := fresh "Hscan" in
  let He := fresh "Herr" in
  let Hi := fresh "Hinv0" in
  let H1 := fresh "Hinv1" in
  let H2 := fresh "Hname" in
  intros H He;
  match type of H with
  | scanSubCmd _ ?c1 = _ =>
    enough (Hi : scanInv c1);
    [destruct (IH c1 _ _ _ Hi H He) as [H1 H2]; split; [exact H1|];
     intros _; apply H2; right; cbn [cmdChar];
     try apply isEmpty_append_byte
    |split; [|split]; cbn [cmdNum cmdLong cmdAssign cmdAssignVal cmdChar];
     try (rewrite isEmpty_append_byte; discriminate)]
  end.

(** The inner loop keeps [scanInv], and ends with a command name unless it
    read nothing and had none. *)
Lemma scanSubCmd_inv (buf : string) :
  forall (c c' : SubCmd) (e : bool) (rest : string),
    scanInv c ->
    scanSubCmd buf c = (c', e, rest) ->
    e = false ->
    scanInv c'
    /\ (isEmpty buf = false \/ isEmpty (cmdChar c) = false ->
        isEmpty (cmdChar c') = false).
Proof.
  induction buf as [|b buf IH]; intros c c' e rest Hinv; simpl.
  - scan_done Hinv. intros [H|H]; [discriminate H | exact H].
  - pose proof Hinv as (Hn & Ha & Hc).
    destruct (Ascii.eqb b "?").
    { destruct (isEmpty (cmdChar c)) eqn:Hemp; cbn [negb].
      - scan_done Hinv.
      - intros H He. injection H as <- <- <-.
        split; [|intros _; exact Hemp].
        split; [exact Hn | split; [exact Ha|]].
        cbn [cmdChar]. rewrite Hemp. discriminate. }
    destruct (cmdAssign c) eqn:Hasg.
    { assert (Hne : isEmpty (cmdChar c) = false).
      { destruct (isEmpty (cmdChar c)); [|reflexivity].
        destruct (Hc eq_refl) as [H _]. discriminate H. }
      destruct (negb (cmdLong c) && negb (checkValidNumChar b)) eqn:Hcond.
      - scan_done Hinv. intros _. exact Hne.
      - scan_step IH.
        + exact Hne.
        + exact Hn.
        + intros Hl. rewrite Hl in Hcond. cbn [negb andb] in Hcond.
          apply negb_false_iff in Hcond.
          apply allDigits_append_byte; auto.
        + rewrite Hne. discriminate. }
    destruct (Ascii.eqb b "+" || Ascii.eqb b "#").
    { destruct (isEmpty (cmdChar c)) eqn:Hemp.
      - scan_step IH.
        + exact Hn.
        + discriminate.
      - scan_done Hinv. }
    destruct (Ascii.eqb b "=").
    { destruct (isEmpty (cmdChar c)) eqn:Hemp; cbn [negb].
      - scan_done Hinv.
      - scan_step IH.
        + exact Hemp.
        + exact Hn.
        + exact Ha.
        + rewrite Hemp. discriminate. }
    destruct (cmdLong c) eqn:Hlong.
    { destruct (checkValidCmdChar b).
      - scan_step IH.
        + exact Hn.
        + discriminate.
      - scan_done Hinv. }
    destruct (isEmpty (cmdChar c) || String.eqb (cmdChar c) "&") eqn:Hstart.
    { destruct (Ascii.eqb b "&" && isEmpty (cmdChar c)
                && (0 <? String.length buf)%nat).
      - scan_step IH.
        + exact Hn.
        + exact Ha.
      - destruct (checkValidCmdChar b); [|scan_done Hinv].
        cbn [cmdChar cmdNum cmdQuery cmdAssignVal].
        destruct (String.eqb (cmdChar c ++ stringOfByte b) "d"
                  || String.eqb (cmdChar c ++ stringOfByte b) "D").
        + scan_step IH.
          * exact Hn.
          * discriminate.
        + scan_step IH.
          * exact Hn.
          * exact Ha. }
    apply orb_false_iff in Hstart as [Hemp _].
    destruct (checkValidNumChar b) eqn:Hnum.
    + scan_step IH.
      * exact Hemp.
      * apply allDigits_append_byte; assumption.
      * exact Ha.
      * rewrite Hemp. discriminate.
    + scan_done Hinv. intros _. exact Hemp.
Qed.

(** X3.  What the tokenizer hands to command execution: whenever a pass
    over a non-empty buffer ends without a grammar error, the command name
    is not empty, the numeric argument consists of digits only, and for a
    short command the assignment value consists of digits only. *)
Theorem X3_subcommand_well_formed (buf : string) (c : SubCmd) (rest : string) :
  isEmpty buf = false ->
  scanSubCmd buf emptySubCmd = (c, false, rest) ->
  isEmpty (cmdChar c) = false
  /\ allDigits (cmdNum c) = true
  /\ (cmdLong c = false -> allDigits (cmdAssignVal c) = true).
Proof.
  intros Hne Hs.
  destruct (scanSubCmd_inv buf emptySubCmd c false rest scanInv_empty Hs eq_refl)
    as [(Hn & Ha & _) Hname].
  split; [apply Hname; left; exact Hne|]. split; assumption.
Qed.

Lemma X3_subcommand_well_formed_witness :
  isEmpty (cmdChar (mkSubCmd "S" "5" false true false "42")) = false
  /\ allDigits (cmdNum (mkSubCmd "S" "5" false true false "42")) = true
  /\ (cmdLong (mkSubCmd "S" "5" false true false "42") = false ->
      allDigits (cmdAssignVal (mkSubCmd "S" "5" false true false "42")) = true).
Proof.
  apply (X3_subcommand_well_formed "S5=42xyz"
           (mkSubCmd "S" "5" false true false "42") "xyz").
  - reflexivity.
  - vm_compute. reflexivity.
Defined.

(** ** Numeric arguments *)

Lemma digit_range (b : ascii) :
  checkValidNumChar b = true -> 0 <= byteZ b - 48 <= 9.
Proof.
  unfold checkValidNumChar. intros H.
  apply andb_true_iff in H as [H1 H2].
  apply Z.leb_le in H1. apply Z.leb_le in H2. lia.
Qed.

Lemma decimalFrom_ge (s : string) :
  forall n : Z, 0 <= n -> allDigits s = true -> n <= decimalFrom n s.
Proof.
  induction s as [|b s IH]; intros n Hn Hd; simpl in *; [lia|].
  apply andb_true_iff in Hd as [Hb Hd].
  pose proof (digit_range b Hb) as Hr.
  assert (H0 : 0 <= n * 10 + (byteZ b - 48)) by lia.
  specialize (IH _ H0 Hd). lia.
Qed.

(** [parseUint] on digits: the value, or a range error when the value does
    not fit 64 bits. *)
Lemma parseUint_digits (s : string) :
  forall n : Z, 0 <= n <= maxUint64 -> allDigits s = true ->
    parseUint s n
    = if decimalFrom n s >? maxUint64 then PRange else PVal (decimalFrom n s).
Proof.
  induction s as [|b s IH]; intros n Hn Hd; simpl in *.
  - destruct (n >? maxUint64) eqn:E; [|reflexivity].
    apply Z.gtb_lt in E. lia.
  - apply andb_true_iff in Hd as [Hb Hd]. rewrite Hb.
    pose proof (digit_range b Hb) as Hr.
    destruct (n * 10 + (byteZ b - 48) >? maxUint64) eqn:E.
    + apply Z.gtb_lt in E.
      assert (H0 : 0 <= n * 10 + (byteZ b - 48)) by lia.
      pose proof (decimalFrom_ge s _ H0 Hd) as Hge.
      destruct (decimalFrom (n * 10 + (byteZ b - 48)) s >? maxUint64) eqn:E2;
        [reflexivity|].
      assert (~ (maxUint64 < decimalFrom (n * 10 + (byteZ b - 48)) s)).
      { intros Hlt. apply Z.gtb_lt in Hlt. congruence. }
      lia.
    + apply IH; [|exact Hd].
      assert (~ (maxUint64 < n * 10 + (byteZ b - 48))).
      { intros Hlt. apply Z.gtb_lt in Hlt. congruence. }
      lia.
Qed.

Lemma allDigits_no_sign (c : ascii) :
  checkValidNumChar c = true ->
  Ascii.eqb c "-" = false /\ Ascii.eqb c "+" = false.
Proof.
  intros H. pose proof (digit_range c H) as Hr.
  split; apply Ascii.eqb_neq; intros ->; vm_compute in Hr; destruct Hr as [H1 _];
    apply H1; reflexivity.
Qed.

(** [strconv.Atoi] on digits: the value, capped at the largest [int]. *)
Lemma Atoi_digits (s : string) :
  allDigits s = true -> Atoi s = Z.min (decimal s) maxInt64.
Proof.
  intros Hd. unfold Atoi, decimal. destruct s as [|c s']; [reflexivity|].
  pose proof Hd as Hd'. simpl in Hd'. apply andb_true_iff in Hd' as [Hc _].
  destruct (allDigits_no_sign c Hc) as [-> ->].
  rewrite parseUint_digits; [|vm_compute; split; discriminate|exact Hd].
  pose proof (decimalFrom_ge (String c s') 0 ltac:(lia) Hd) as Hge.
  destruct (decimalFrom 0 (String c s') >? maxUint64) eqn:E1.
  - apply Z.gtb_lt in E1. unfold maxUint64, maxInt64 in *. lia.
  - destruct (decimalFrom 0 (String c s') >? maxInt64) eqn:E2.
    + apply Z.gtb_lt in E2. lia.
    + assert (~ (maxInt64 < decimalFrom 0 (String c s'))).
      { intros Hlt. apply Z.gtb_lt in Hlt. congruence. }
      lia.
Qed.

Lemma range_check (r : Z) :
  0 <= r -> (r <? 0) || (r >? 255) = (255 <? r).
Proof.
  intros H. destruct (r <? 0) eqn:E1; [apply Z.ltb_lt in E1; lia|].
  simpl. rewrite Z.gtb_ltb. reflexivity.
Qed.

Lemma Atoi_digits_small (s : string) :
  allDigits s = true ->
  0 <= Atoi s /\ (decimal s <= 255 -> Atoi s = decimal s)
  /\ (255 < decimal s -> 255 < Atoi s).
Proof.
  intros Hd. rewrite (Atoi_digits s Hd).
  pose proof (decimalFrom_ge s 0 ltac:(lia) Hd) as Hge. fold (decimal s) in Hge.
  unfold maxInt64. repeat split; lia.
Qed.

(** X4.  The register number and the value of an S command are compared
    with 255 as the numbers their digits denote, however many digits there
    are: a number too large for an [int] does not wrap around into range.
    A register number above 255 is an error; so is an assigned value above
    255; otherwise the assignment stores the value under the register
    number.  An error leaves the modem as it was. *)
Theorem X4_sreg_bounds (num val : string) (a q : bool) (m : Modem) :
  allDigits num = true ->
  allDigits val = true ->
  (255 < decimal num ->
   processCommand None "S" num a q val m = Ok (RetCodeError, m))
  /\ (decimal num <= 255 -> 255 < decimal val ->
      processCommand None "S" num true q val m = Ok (RetCodeError, m))
  /\ (decimal num <= 255 -> decimal val <= 255 ->
      processCommand None "S" num true q val m
      = Ok (RetCodeOk,
            set_sregs (<[decimal num := decimal val]> (sregs m)) m)).
Proof.
  intros Hn Hv.
  destruct (Atoi_digits_small num Hn) as (Hn0 & Hn1 & Hn2).
  destruct (Atoi_digits_small val Hv) as (Hv0 & Hv1 & Hv2).
  pose proof (decimalFrom_ge num 0 ltac:(lia) Hn) as Hgn. fold (decimal num) in Hgn.
  pose proof (decimalFrom_ge val 0 ltac:(lia) Hv) as Hgv. fold (decimal val) in Hgv.
  unfold processCommand, builtinCommand. cbn [String.eqb Ascii.eqb Bool.eqb].
  rewrite (range_check _ Hn0), (range_check _ Hv0).
  split; [|split].
  - intros H. specialize (Hn2 H). apply Z.ltb_lt in Hn2. rewrite Hn2. reflexivity.
  - intros H1 H2. rewrite (Hn1 H1). specialize (Hv2 H2).
    apply Z.ltb_lt in Hv2. rewrite Hv2.
    destruct (255 <? decimal num) eqn:E; [apply Z.ltb_lt in E; lia|]. reflexivity.
  - intros H1 H2. rewrite (Hn1 H1), (Hv1 H2).
    destruct (255 <? decimal num) eqn:E; [apply Z.ltb_lt in E; lia|].
    destruct (255 <? decimal val) eqn:E2; [apply Z.ltb_lt in E2; lia|].
    rewrite !byteOfInt_id by lia. reflexivity.
Qed.

Lemma X4_sreg_bounds_witness :
  processCommand None "S" "99999999999999999999999" false true ""
    (NewModem (mkConfig false None ""))
  = Ok (RetCodeError, NewModem (mkConfig false None "")).
Proof.
  apply (proj1 (X4_sreg_bounds "99999999999999999999999" "" false true
                  (NewModem (mkConfig false None "")) eq_refl eq_refl)).
  vm_compute. reflexivity.
Defined.

Lemma X4_sreg_bounds_aux (num val : string) (q : bool) (m : Modem) :
  allDigits num = true -> allDigits val = true ->
  decimal num <= 255 -> decimal val <= 255 ->
  exists m1 : Modem,
    processCommand None "S" num true q val m = Ok (RetCodeOk, m1)
    /\ m1 = set_sregs (<[decimal num := decimal val]> (sregs m)) m.
Proof.
  intros Hn Hv Hr Hrv.
  destruct (Atoi_digits_small num Hn) as (Hn0 & Hn1 & _).
  destruct (Atoi_digits_small val Hv) as (Hv0 & Hv1 & _).
  pose proof (decimalFrom_ge num 0 ltac:(lia) Hn) as Hgn. fold (decimal num) in Hgn.
  pose proof (decimalFrom_ge val 0 ltac:(lia) Hv) as Hgv. fold (decimal val) in Hgv.
  eexists. split; [|reflexivity].
  unfold processCommand, builtinCommand. cbn [String.eqb Ascii.eqb Bool.eqb].
  rewrite (range_check _ Hn0), (range_check _ Hv0), (Hn1 Hr), (Hv1 Hrv).
  destruct (255 <? decimal num) eqn:E; [apply Z.ltb_lt in E; lia|].
  destruct (255 <? decimal val) eqn:E2; [apply Z.ltb_lt in E2; lia|].
  rewrite !byteOfInt_id by lia. reflexivity.
Qed.

(** X5.  Registers are independent and default to zero: after an accepted
    assignment to one register, a query of any register prints the value
    just assigned if it is that register and otherwise what the register
    held before, which is 0 for a register never assigned. *)
Theorem X5_sreg_independent (num val num' : string) (q : bool) (v : string)
    (m : Modem) :
  allDigits num = true -> allDigits val = true -> allDigits num' = true ->
  decimal num <= 255 -> decimal val <= 255 -> decimal num' <= 255 ->
  exists m1 : Modem,
    processCommand None "S" num true q val m = Ok (RetCodeOk, m1)
    /\ processCommand None "S" num' false true v m1
       = Ok (RetCodeOk,
             ttyWriteStr
               (cr m
                ++ fmt03d (if decimal num' =? decimal num then decimal val
                           else default 0 (sregs m !! decimal num'))
                ++ CRLF) m1).
Proof.
  intros Hn Hv Hn' Hr Hrv Hr'.
  destruct (X4_sreg_bounds_aux num val q m Hn Hv Hr Hrv) as [m1 [H1 Hm1]].
  exists m1. split; [exact H1|].
  destruct (Atoi_digits_small num' Hn') as (Hn0 & Hn1 & _).
  unfold processCommand, builtinCommand. cbn [String.eqb Ascii.eqb Bool.eqb].
  rewrite (range_check _ Hn0), (Hn1 Hr').
  destruct (255 <? decimal num') eqn:E; [apply Z.ltb_lt in E; lia|].
  pose proof (decimalFrom_ge num' 0 ltac:(lia) Hn') as Hg.
  fold (decimal num') in Hg.
  rewrite byteOfInt_id by lia. subst m1. cbn [sregs set_sregs cr shortForm].
  destruct (decimal num' =? decimal num) eqn:Eq.
  - apply Z.eqb_eq in Eq. rewrite Eq, lookup_insert_eq. reflexivity.
  - apply Z.eqb_neq in Eq. rewrite lookup_insert_ne by congruence. reflexivity.
Qed.

Lemma X5_sreg_independent_witness :
  exists m1 : Modem,
    processCommand None "S" "5" true false "42"
      (NewModem (mkConfig false None "")) = Ok (RetCodeOk, m1)
    /\ processCommand None "S" "6" false true "" m1
       = Ok (RetCodeOk,
             ttyWriteStr
               (cr (NewModem (mkConfig false None ""))
                ++ fmt03d (if decimal "6" =? decimal "5" then decimal "42"
                           else default 0
                                  (sregs (NewModem (mkConfig false None ""))
                                     !! decimal "6"))
                ++ CRLF) m1).
Proof.
  apply (X5_sreg_independent "5" "42" "6" false ""
           (NewModem (mkConfig false None "")));
    first [reflexivity | vm_compute; discriminate].
Defined.

Lemma byteZ_digitChar (d : Z) : 0 <= d <= 9 -> byteZ (digitChar d) = 48 + d.
Proof.
  intros H. unfold byteZ, digitChar.
  rewrite N_ascii_embedding.
  - rewrite Z2N.id; lia.
  - apply N2Z.inj_lt. rewrite Z2N.id by lia. simpl. lia.
Qed.

(** X6.  The three characters a register query prints for a byte value are
    digits, and read as a decimal number they are that value: what a query
    shows can be typed back as an assignment value unchanged. *)
Theorem X6_query_digits_denote_value (v : Z) :
  0 <= v <= 255 ->
  String.length (fmt03d v) = 3%nat
  /\ allDigits (fmt03d v) = true
  /\ decimal (fmt03d v) = v
  /\ Atoi (fmt03d v) = v.
Proof.
  intros Hv.
  assert (H1 : 0 <= v / 100 <= 9).
  { split; [apply Z.div_pos; lia|]. apply Z.div_le_upper_bound; lia. }
  assert (H2 : 0 <= v / 10 mod 10 <= 9).
  { pose proof (Z.mod_pos_bound (v / 10) 10 ltac:(lia)). lia. }
  assert (H3 : 0 <= v mod 10 <= 9).
  { pose proof (Z.mod_pos_bound v 10 ltac:(lia)). lia. }
  assert (Hd : allDigits (fmt03d v) = true).
  { unfold fmt03d, allDigits, checkValidNumChar.
    rewrite !byteZ_digitChar by assumption.
    repeat (apply andb_true_iff; split); try reflexivity; apply Z.leb_le; lia. }
  assert (Hval : decimal (fmt03d v) = v).
  { unfold decimal, fmt03d, decimalFrom.
    rewrite !byteZ_digitChar by assumption.
    pose proof (Z.div_mod v 10 ltac:(lia)) as E1.
    pose proof (Z.div_mod (v / 10) 10 ltac:(lia)) as E2.
    assert (E3 : v / 10 / 10 = v / 100)
      by (rewrite Z.div_div by lia; reflexivity).
    lia. }
  split; [reflexivity|]. split; [exact Hd|]. split; [exact Hval|].
  rewrite (Atoi_digits _ Hd), Hval. unfold maxInt64. lia.
Qed.

Lemma X6_query_digits_denote_value_witness :
  String.length (fmt03d 42) = 3%nat
  /\ allDigits (fmt03d 42) = true
  /\ decimal (fmt03d 42) = 42
  /\ Atoi (fmt03d 42) = 42.
Proof.
  apply (X6_query_digits_denote_value 42). split; vm_compute; discriminate.
Defined.

(** ** The terminal read task *)

Lemma ttyReadBytes_cancelled (hook : option CommandHookType) (s : string)
    (t : ReadTask) (m : Modem) :
  ctxCancelled m = true -> ttyReadBytes hook s t m = Ok (t, m).
Proof.
  intros Hc. destruct s as [|b s]; simpl; [reflexivity|].
  rewrite Hc. reflexivity.
Qed.

Lemma ttyReadBytes_app (hook : option CommandHookType) (s1 s2 : string) :
  forall (t : ReadTask) (m : Modem),
    ttyReadBytes hook (s1 ++ s2) t m
    = (tm <-! ttyReadBytes hook s1 t m;
       ttyReadBytes hook s2 (fst tm) (snd tm)).
Proof.
  induction s1 as [|b s1 IH]; intros t m; simpl; [reflexivity|].
  destruct (ctxCancelled m) eqn:Hc.
  - simpl. symmetry. apply ttyReadBytes_cancelled. exact Hc.
  - destruct (ttyReadByte hook b t m) as [[t1 m1]|p]; simpl; [|reflexivity].
    apply IH.
Qed.

Lemma online_forwards (hook : option CommandHookType)
    (input : string) (t : ReadTask) (m : Modem) (c : Conn) :
  status m = StatusConnected ->
  conn m = Some c ->
  ttyReadBytes hook input t m
  = Ok (t, if ctxCancelled m then m
           else set_connOut
                  (connOut m ++ List.map (fun b => (c, b))
                                  (list_ascii_of_string input))%list m).
Proof.
  revert m. induction input as [|b input IH]; intros m Hs Hc; simpl.
  - rewrite app_nil_r. destruct m; simpl. destruct ctxCancelled0; reflexivity.
  - destruct (ctxCancelled m) eqn:Hl; [reflexivity|].
    unfold ttyReadByte. rewrite Hs, Hc. simpl.
    rewrite IH by (simpl; assumption). simpl. rewrite Hl.
    rewrite <- app_assoc. reflexivity.
Qed.

(** X7.  Online mode is a pure pass-through: while the status is Connected
    and a connection is stored, every byte of the terminal input, whatever
    it is, is written to the connection in the order read; nothing is
    echoed, nothing is interpreted, and the status, the read task and the
    rest of the modem stay as they are.  No terminal input leaves online
    mode.  (Once the lifetime scope is cancelled the loop ends at its head
    and reads nothing at all.) *)
Theorem X7_online_pass_through (hook : option CommandHookType)
    (input : string) (t : ReadTask) (m : Modem) (c : Conn) :
  status m = StatusConnected ->
  conn m = Some c ->
  ttyReadBytes hook input t m
  = Ok (t, if ctxCancelled m then m
           else set_connOut
                  (connOut m ++ List.map (fun b => (c, b))
                                  (list_ascii_of_string input))%list m).
Proof. exact (online_forwards hook input t m c). Qed.

Lemma X7_online_pass_through_witness :
  ttyReadBytes None ("+++ATH" ++ CR) newReadTask
    (set_conn (Some 7%nat)
       (set_st StatusConnected (NewModem (mkConfig false None ""))))
  = Ok (newReadTask,
        set_connOut
          (List.map (fun b => (7%nat, b)) (list_ascii_of_string ("+++ATH" ++ CR)))
          (set_conn (Some 7%nat)
             (set_st StatusConnected (NewModem (mkConfig false None ""))))).
Proof.
  apply (X7_online_pass_through None ("+++ATH" ++ CR) newReadTask
           (set_conn (Some 7%nat)
              (set_st StatusConnected (NewModem (mkConfig false None ""))))
           7%nat eq_refl eq_refl).
Defined.

(** X8.  Any byte typed while a dial is outstanding aborts it: the byte is
    consumed without echo, NO CARRIER is printed, the status becomes Idle,
    and the scope handed to the dial task is cancelled, so that the task,
    when its call returns, changes nothing on a failure and only closes
    the stream it obtained on a success. *)
Theorem X8_keypress_aborts_dial (hook : option CommandHookType) (b : ascii)
    (t : ReadTask) (m : Modem) :
  status m = StatusDialing ->
  exists m' : Modem,
    ttyReadByte hook b t m = Ok (t, m')
    /\ m' = commitStatus StatusDialing StatusIdle
              (printRetCode RetCodeNoCarrier m)
    /\ st m' = StatusIdle
    /\ ctxErr (stCtx m) m' = true
    /\ processDialing (stCtx m) DialErr m' = Ok m'
    /\ forall c : Conn,
         processDialing (stCtx m) (DialConn (Some c)) m'
         = Ok (set_connClosed (connClosed m' ++ [c])%list m').
Proof.
  intros Hs. eexists. split; [|split; [reflexivity|]].
  - unfold ttyReadByte. rewrite Hs. simpl.
    unfold setStatus. unfold status in Hs. rewrite Hs. reflexivity.
  - assert (Hc : ctxErr (stCtx m)
                   (commitStatus StatusDialing StatusIdle
                      (printRetCode RetCodeNoCarrier m)) = true).
    { unfold ctxErr. simpl. 
      replace (stCtx m <? S (stCtx m))%nat with true
        by (symmetry; apply Nat.ltb_lt; lia). reflexivity. }
    split; [reflexivity|]. split; [exact Hc|].
    unfold processDialing. rewrite Hc. split; [reflexivity|].
    intros c. reflexivity.
Qed.

Lemma X8_keypress_aborts_dial_witness :
  exists m' : Modem,
    ttyReadByte None "x" newReadTask
      (set_st StatusDialing (NewModem (mkConfig true None ""))) = Ok (newReadTask, m')
    /\ st m' = StatusIdle.
Proof.
  destruct (X8_keypress_aborts_dial None "x" newReadTask
              (set_st StatusDialing (NewModem (mkConfig true None "")))
              eq_refl) as [m' (H1 & _ & H2 & _)].
  exists m'. split; [exact H1 | exact H2].
Defined.

Lemma append_cons (b : ascii) (s1 s2 : string) :
  String b s1 ++ s2 = String b (s1 ++ s2).
Proof. reflexivity. Qed.

Lemma append_nil_l (s : string) : "" ++ s = s.
Proof. reflexivity. Qed.

Lemma append_nil_r (s : string) : s ++ "" = s.
Proof.
  induction s as [|b s IH]; [reflexivity|].
  rewrite append_cons, IH. reflexivity.
Qed.

Lemma list_ascii_of_string_app (s1 s2 : string) :
  list_ascii_of_string (s1 ++ s2)
  = (list_ascii_of_string s1 ++ list_ascii_of_string s2)%list.
Proof.
  induction s1 as [|b s1 IH]; [reflexivity|].
  rewrite append_cons. simpl. f_equal. exact IH.
Qed.

Lemma string_app_assoc (s1 s2 s3 : string) :
  (s1 ++ s2) ++ s3 = s1 ++ (s2 ++ s3).
Proof.
  induction s1 as [|b s1 IH]; [reflexivity|].
  rewrite !append_cons. f_equal. exact IH.
Qed.

Lemma string_length_app (s1 s2 : string) :
  String.length (s1 ++ s2) = (String.length s1 + String.length s2)%nat.
Proof.
  induction s1 as [|b s1 IH]; [reflexivity|].
  rewrite append_cons. simpl. f_equal. exact IH.
Qed.

Lemma echoBytes_fields (s : string) (m : Modem) :
  st (echoBytes s m) = st m /\ echo (echoBytes s m) = echo m
  /\ stCtx (echoBytes s m) = stCtx m /\ conn (echoBytes s m) = conn m.
Proof. unfold echoBytes. destruct (echo m) eqn:E; simpl; auto. Qed.

Lemma echoBytes_live (s : string) (m : Modem) :
  ctxCancelled (echoBytes s m) = ctxCancelled m.
Proof. unfold echoBytes. destruct (echo m); reflexivity. Qed.

Lemma echoBytes_app (s1 s2 : string) (m : Modem) :
  echoBytes (s1 ++ s2) m = echoBytes s2 (echoBytes s1 m).
Proof.
  unfold echoBytes. destruct (echo m) eqn:E; simpl; rewrite E; [|reflexivity].
  unfold set_ttyOut. simpl.
  rewrite list_ascii_of_string_app, List.map_app, app_assoc. reflexivity.
Qed.

Lemma not_online (m : Modem) :
  status m <> StatusConnected -> status m <> StatusDialing ->
  ModemStatus_eqb (status m) StatusConnected = false
  /\ ModemStatus_eqb (status m) StatusDialing = false.
Proof.
  intros H1 H2. split.
  - destruct (ModemStatus_eqb (status m) StatusConnected) eqn:E; [|reflexivity].
    apply ModemStatus_eqb_eq in E. contradiction.
  - destruct (ModemStatus_eqb (status m) StatusDialing) eqn:E; [|reflexivity].
    apply ModemStatus_eqb_eq in E. contradiction.
Qed.

(** Bytes typed in command-entry mode accumulate in the buffer. *)
Lemma entry_accumulates (hook : option CommandHookType) (line : string) :
  forall (t : ReadTask) (m : Modem),
    atFlag t = true ->
    ctxCancelled m = false ->
    status m <> StatusConnected -> status m <> StatusDialing ->
    allPrint line = true ->
    (String.length (buffer t) + String.length line <= 100)%nat ->
    ttyReadBytes hook line t m
    = Ok (mkReadTask (aFlag t) true (buffer t ++ line) (lastCmd t),
          echoBytes line m).
Proof.
  induction line as [|b line IH]; intros t m Hat Hl Hc Hd Hp Hlen.
  - simpl. unfold echoBytes. simpl. rewrite app_nil_r.
    rewrite append_nil_r. destruct t as [af atf bf lc]. simpl in Hat. subst atf.
    destruct m, echo0; reflexivity.
  - simpl in Hp. apply andb_true_iff in Hp as [Hb Hp].
    simpl in Hlen.
    cbn [ttyReadBytes]. rewrite Hl.
    rewrite (ttyReadByte_buffers hook b t m Hat Hc Hd ltac:(lia) Hb).
    cbn [bindR fst snd].
    rewrite IH; cbn [atFlag buffer aFlag lastCmd]; try assumption.
    + rewrite string_app_assoc, append_cons, append_nil_l.
      f_equal. f_equal.
      transitivity (echoBytes line (echoBytes (String b "") m));
        [reflexivity|].
      symmetry. apply (echoBytes_app (String b "") line m).
    + destruct (echo m); assumption.
    + destruct (echo m); assumption.
    + destruct (echo m); assumption.
    + rewrite string_length_app. simpl. lia.
Qed.

Lemma read_A (hook : option CommandHookType) (a : ascii) (t : ReadTask)
    (m : Modem) :
  atFlag t = false ->
  status m <> StatusConnected -> status m <> StatusDialing ->
  a = "A"%char \/ a = "a"%char ->
  ttyReadByte hook a t m
  = Ok (mkReadTask true false (buffer t) (lastCmd t),
        echoBytes (String a "") m).
Proof.
  intros Hat Hc Hd Ha. unfold ttyReadByte.
  destruct (not_online m Hc Hd) as [-> ->]. rewrite Hat. cbn [negb].
  assert (Hu : upperIs a "A" = true) by (destruct Ha as [-> | ->]; reflexivity).
  rewrite Hu. reflexivity.
Qed.

Lemma read_T (hook : option CommandHookType) (c : ascii) (t : ReadTask)
    (m : Modem) :
  atFlag t = false -> aFlag t = true ->
  status m <> StatusConnected -> status m <> StatusDialing ->
  c = "T"%char \/ c = "t"%char ->
  ttyReadByte hook c t m
  = Ok (mkReadTask false true (buffer t) (lastCmd t),
        echoBytes (String c "") m).
Proof.
  intros Hat Ha Hc Hd Ht. unfold ttyReadByte.
  destruct (not_online m Hc Hd) as [-> ->]. rewrite Hat, Ha. cbn [negb].
  destruct Ht as [-> | ->]; reflexivity.
Qed.

Lemma read_CR (hook : option CommandHookType) (t : ReadTask) (m : Modem) :
  atFlag t = true ->
  status m <> StatusConnected -> status m <> StatusDialing ->
  ttyReadByte hook (ascii_of_nat 13) t m
  = (m1 <-! submit hook (buffer t) m;
     Ok (mkReadTask (aFlag t) false "" (buffer t), m1)).
Proof.
  intros Hat Hc Hd. unfold ttyReadByte.
  destruct (not_online m Hc Hd) as [-> ->]. rewrite Hat. reflexivity.
Qed.

Lemma read_slash (hook : option CommandHookType) (t : ReadTask) (m : Modem) :
  atFlag t = false -> aFlag t = true ->
  status m <> StatusConnected -> status m <> StatusDialing ->
  ttyReadByte hook "/" t m
  = (m2 <-! submit hook (lastCmd t) (echoBytes "/" m);
     Ok (mkReadTask false false (buffer t) (lastCmd t), m2)).
Proof.
  intros Hat Ha Hc Hd. unfold ttyReadByte.
  destruct (not_online m Hc Hd) as [-> ->]. rewrite Hat, Ha. reflexivity.
Qed.

Lemma echoBytes_not_online (s : string) (m : Modem) :
  status m <> StatusConnected -> status m <> StatusDialing ->
  status (echoBytes s m) <> StatusConnected
  /\ status (echoBytes s m) <> StatusDialing.
Proof.
  unfold status. destruct (echoBytes_fields s m) as (-> & _). auto.
Qed.

Lemma line_entry (hook : option CommandHookType)
    (a c : ascii) (line : string) (t : ReadTask) (m : Modem) :
  atFlag t = false -> buffer t = "" ->
  ctxCancelled m = false ->
  status m <> StatusConnected -> status m <> StatusDialing ->
  a = "A"%char \/ a = "a"%char ->
  c = "T"%char \/ c = "t"%char ->
  allPrint line = true ->
  (String.length line <= 100)%nat ->
  ttyReadBytes hook (String a (String c (line ++ CR))) t m
  = (m2 <-! submit hook line (echoBytes (String a (String c line)) m);
     Ok (mkReadTask false false "" line, m2)).
Proof.
  intros Hat Hbuf Hl Hc Hd Ha Ht Hp Hlen.
  destruct t as [af atf bf lc]. cbn [atFlag buffer] in Hat, Hbuf. subst atf bf.
  cbn [ttyReadBytes]. rewrite Hl.
  rewrite (read_A hook a (mkReadTask af false "" lc) m eq_refl Hc Hd Ha).
  cbn [bindR fst snd buffer lastCmd].
  destruct (echoBytes_not_online (String a "") m Hc Hd) as [Hc1 Hd1].
  assert (Hl1 : ctxCancelled (echoBytes (String a "") m) = false)
    by (rewrite echoBytes_live; exact Hl).
  rewrite Hl1.
  rewrite (read_T hook c (mkReadTask true false "" lc) _ eq_refl eq_refl
             Hc1 Hd1 Ht).
  cbn [bindR fst snd buffer lastCmd].
  destruct (echoBytes_not_online (String c "") _ Hc1 Hd1) as [Hc2 Hd2].
  assert (Hl2 : ctxCancelled (echoBytes (String c "")
                                (echoBytes (String a "") m)) = false)
    by (rewrite echoBytes_live; exact Hl1).
  rewrite ttyReadBytes_app.
  rewrite (entry_accumulates hook line (mkReadTask false true "" lc) _
             eq_refl Hl2 Hc2 Hd2 Hp); [|simpl; lia].
  cbn [bindR fst snd aFlag buffer lastCmd]. rewrite append_nil_l.
  destruct (echoBytes_not_online line _ Hc2 Hd2) as [Hc3 Hd3].
  assert (Hl3 : ctxCancelled (echoBytes line
                                (echoBytes (String c "")
                                   (echoBytes (String a "") m))) = false)
    by (rewrite echoBytes_live; exact Hl2).
  unfold CR. cbn [ttyReadBytes]. rewrite Hl3.
  rewrite (read_CR hook (mkReadTask false true line lc) _ eq_refl Hc3 Hd3).
  cbn [buffer aFlag].
  rewrite <- !echoBytes_app.
  change (String a "" ++ String c "" ++ line) with (String a (String c line)).
  destruct (submit hook line (echoBytes (String a (String c line)) m));
    reflexivity.
Qed.

(** X9.  Command entry submits what was typed: while the lifetime scope is
    live (the modem was not closed), outside command-entry mode
    with an empty buffer, the bytes [A] [T] (in either case), then up to 100
    printable bytes, then a carriage return, run exactly those bytes as
    the command line, after echoing each typed byte (when echo is on) and
    then a carriage return; the read task leaves command-entry mode with an
    empty buffer and remembers the line for [A/]. *)
Theorem X9_line_entry_submits_line (hook : option CommandHookType)
    (a c : ascii) (line : string) (t : ReadTask) (m : Modem) :
  atFlag t = false -> buffer t = "" ->
  ctxCancelled m = false ->
  status m <> StatusConnected -> status m <> StatusDialing ->
  a = "A"%char \/ a = "a"%char ->
  c = "T"%char \/ c = "t"%char ->
  allPrint line = true ->
  (String.length line <= 100)%nat ->
  ttyReadBytes hook (String a (String c (line ++ CR))) t m
  = (m2 <-! submit hook line (echoBytes (String a (String c line)) m);
     Ok (mkReadTask false false "" line, m2)).
Proof. exact (line_entry hook a c line t m). Qed.

Lemma X9_line_entry_submits_line_witness :
  ttyReadBytes None (String "a" (String "t" ("E0V0" ++ CR))) newReadTask
    (NewModem (mkConfig false None ""))
  = (m2 <-! submit None "E0V0"
              (echoBytes (String "a" (String "t" "E0V0"))
                 (NewModem (mkConfig false None "")));
     Ok (mkReadTask false false "" "E0V0", m2)).
Proof.
  apply (X9_line_entry_submits_line None "a" "t" "E0V0" newReadTask
           (NewModem (mkConfig false None ""))).
  - reflexivity.
  - reflexivity.
  - reflexivity.
  - discriminate.
  - discriminate.
  - right; reflexivity.
  - right; reflexivity.
  - reflexivity.
  - simpl. lia.
Defined.

Lemma dropLast_append_byte (s : string) (b : ascii) :
  dropLast (s ++ String b "") = s.
Proof.
  induction s as [|a s IH]; [reflexivity|].
  rewrite append_cons.
  assert (Hne : exists c r, s ++ String b "" = String c r).
  { destruct s as [|a0 s0]; [exists b, ""|exists a0, (s0 ++ String b "")];
      reflexivity. }
  destruct Hne as (c & r & E).
  rewrite E.
  change (dropLast (String a (String c r)))
    with (String a (dropLast (String c r))).
  rewrite <- E. f_equal. exact IH.
Qed.

(** X10.  Delete undoes the byte typed before it: while the lifetime scope
    is live, in command-entry mode, a
    printable byte that fits the buffer followed by the delete byte leaves
    the buffer as it was; the terminal receives the echo of the byte (when
    echo is on) and then the erase sequence, which is written whether echo
    is on or not.  On an empty buffer the delete byte does nothing and
    writes nothing. *)
Theorem X10_delete_undoes_byte (hook : option CommandHookType) (b : ascii)
    (t : ReadTask) (m : Modem) :
  atFlag t = true ->
  ctxCancelled m = false ->
  status m <> StatusConnected -> status m <> StatusDialing ->
  IsPrint b = true ->
  (String.length (buffer t) < 100)%nat ->
  ttyReadBytes hook (String b (String DEL "")) t m
  = Ok (mkReadTask (aFlag t) true (buffer t) (lastCmd t),
        ttyWriteStr eraseSeq (echoBytes (String b "") m))
  /\ (buffer t = "" -> ttyReadByte hook DEL t m = Ok (t, m)).
Proof.
  intros Hat Hl Hc Hd Hp Hlen. split.
  - cbn [ttyReadBytes]. rewrite Hl.
    rewrite (ttyReadByte_buffers hook b t m Hat Hc Hd Hlen Hp).
    cbn [bindR fst snd]. rewrite Hat.
    change (if echo m then ttyWriteByte b m else m)
      with (echoBytes (String b "") m).
    rewrite echoBytes_live, Hl.
    destruct (echoBytes_not_online (String b "") m Hc Hd) as [Hc1 Hd1].
    unfold ttyReadByte.
    destruct (not_online _ Hc1 Hd1) as [-> ->].
    cbn [atFlag negb buffer aFlag lastCmd].
    change (byteZ DEL =? 127) with true. cbn iota.
    rewrite string_length_app. cbn [String.length].
    replace (0 <? String.length (buffer t) + 1)%nat with true
      by (symmetry; apply Nat.ltb_lt; lia).
    rewrite dropLast_append_byte. reflexivity.
  - intros Hb. unfold ttyReadByte.
    destruct (not_online m Hc Hd) as [-> ->]. rewrite Hat, Hb. reflexivity.
Qed.

Lemma X10_delete_undoes_byte_witness :
  ttyReadBytes None (String "x" (String DEL ""))
    (mkReadTask false true "E" "") (NewModem (mkConfig false None ""))
  = Ok (mkReadTask false true "E" "",
        ttyWriteStr eraseSeq
          (echoBytes "x" (NewModem (mkConfig false None "")))).
Proof.
  apply (proj1 (X10_delete_undoes_byte None "x" (mkReadTask false true "E" "")
                  (NewModem (mkConfig false None ""))
                  eq_refl eq_refl ltac:(discriminate) ltac:(discriminate)
                  eq_refl ltac:(simpl; lia))).
Defined.

(** X11.  [A/] repeats the last line: while the lifetime scope is live,
    outside command-entry mode, an [A]
    (in either case) followed by [/] echoes the two bytes (when echo is on)
    and runs the line remembered from the last carriage return again,
    leaving the read task outside command-entry mode with the same line
    remembered.  When no line was submitted yet the remembered line is
    empty, and in a status that accepts command lines the terminal receives
    a carriage return and the OK result. *)
Theorem X11_repeat_last_line (hook : option CommandHookType) (a : ascii)
    (t : ReadTask) (m : Modem) :
  atFlag t = false ->
  ctxCancelled m = false ->
  status m <> StatusConnected -> status m <> StatusDialing ->
  a = "A"%char \/ a = "a"%char ->
  ttyReadBytes hook (String a "/") t m
  = (m2 <-! submit hook (lastCmd t) (echoBytes (String a "/") m);
     Ok (mkReadTask false false (buffer t) (lastCmd t), m2))
  /\ (lastCmd t = "" ->
      status m = StatusIdle \/ status m = StatusConnectedCmd ->
      ttyReadBytes hook (String a "/") t m
      = Ok (mkReadTask false false (buffer t) "",
            printRetCode RetCodeOk
              (ttyWriteStr CR (echoBytes (String a "/") m)))).
Proof.
  intros Hat Hl Hc Hd Ha.
  assert (Hgen : ttyReadBytes hook (String a "/") t m
                 = (m2 <-! submit hook (lastCmd t) (echoBytes (String a "/") m);
                    Ok (mkReadTask false false (buffer t) (lastCmd t), m2))).
  { cbn [ttyReadBytes]. rewrite Hl.
    rewrite (read_A hook a t m Hat Hc Hd Ha). cbn [bindR fst snd].
    rewrite echoBytes_live, Hl.
    destruct (echoBytes_not_online (String a "") m Hc Hd) as [Hc1 Hd1].
    rewrite (read_slash hook (mkReadTask true false (buffer t) (lastCmd t)) _
               eq_refl eq_refl Hc1 Hd1).
    cbn [buffer lastCmd]. rewrite <- echoBytes_app.
    change (String a "" ++ "/") with (String a "/").
    destruct (submit hook (lastCmd t) (echoBytes (String a "/") m));
      reflexivity. }
  split; [exact Hgen|].
  intros Hlc Hs. rewrite Hgen, Hlc. unfold submit, processAtCommand.
  assert (Hg : status (ttyWriteStr CR (echoBytes (String a "/") m)) = status m).
  { unfold status. cbn [ttyWriteStr set_ttyOut st].
    destruct (echoBytes_fields (String a "/") m) as (-> & _). reflexivity. }
  rewrite guard_passes by (rewrite Hg; exact Hs).
  reflexivity.
Qed.

Lemma X11_repeat_last_line_witness :
  ttyReadBytes None "a/" (mkReadTask false false "" "E0")
    (NewModem (mkConfig false None ""))
  = (m2 <-! submit None "E0"
              (echoBytes "a/" (NewModem (mkConfig false None "")));
     Ok (mkReadTask false false "" "E0", m2)).
Proof.
  apply (proj1 (X11_repeat_last_line None "a" (mkReadTask false false "" "E0")
                  (NewModem (mkConfig false None ""))
                  eq_refl eq_refl ltac:(discriminate) ltac:(discriminate)
                  (or_intror eq_refl))).
Defined.

(** ** Closing *)

(** X12.  A closed modem is inert.  [close] on a modem that is not Closed
    succeeds, makes the status Closed, cancels the lifetime scope and closes
    the terminal stream.  From then on: a second [close] panics with the
    invalid-transition error; a command line gets the error result and
    nothing is executed; an incoming call is refused as busy; and a dial
    task started before the close finds its scope cancelled, so it changes
    nothing when its call failed and only closes its stream when the call
    succeeded. *)
Theorem X12_closed_modem_is_inert (m m' : Modem) :
  close m = Ok m' ->
  st m <> StatusClosed
  /\ st m' = StatusClosed /\ ctxCancelled m' = true /\ ttyClosed m' = true
  /\ ttyOut m' = ttyOut m
  /\ close m' = Panicked ErrInvalidStateTransition
  /\ (forall (hook : option CommandHookType) (cmd : string),
        processAtCommand hook cmd m' = Ok (RetCodeError, m'))
  /\ (forall c : option Conn, incomingCall c m' = Ok (false, m'))
  /\ (forall g : nat, (g <= stCtx m)%nat ->
        ctxErr g m' = true
        /\ processDialing g DialErr m' = Ok m'
        /\ forall c : Conn,
             processDialing g (DialConn (Some c)) m'
             = Ok (set_connClosed (connClosed m' ++ [c])%list m')).
Proof.
  unfold close. destruct (setStatus StatusClosed m) as [m1|p] eqn:Hs;
    simpl; intros H; [|discriminate H]. injection H as <-.
  pose proof (setStatus_scope _ _ _ Hs) as [Hg Hst].
  assert (Hne : st m <> StatusClosed).
  { intros E. unfold setStatus in Hs. rewrite E in Hs. discriminate Hs. }
  assert (Hout : ttyOut m1 = ttyOut m).
  { unfold setStatus in Hs. destruct (st m); try discriminate Hs;
      simpl in Hs; injection Hs as <-; reflexivity. }
  split; [exact Hne|]. split; [exact Hst|]. split; [reflexivity|].
  split; [reflexivity|]. split; [exact Hout|].
  split; [unfold setStatus; simpl; rewrite Hst; reflexivity|].
  split; [intros hook cmd; unfold processAtCommand, status; simpl;
          rewrite Hst; reflexivity|].
  split; [intros c; unfold incomingCall, status; simpl; rewrite Hst;
          reflexivity|].
  intros g Hle.
  assert (Hc : ctxErr g (set_ttyClosed true (set_ctxCancelled true m1)) = true).
  { unfold ctxErr. simpl. rewrite Hg.
    replace (g <? S (stCtx m))%nat with true
      by (symmetry; apply Nat.ltb_lt; lia). reflexivity. }
  split; [exact Hc|]. unfold processDialing. rewrite Hc.
  split; [reflexivity|]. intros c. reflexivity.
Qed.

Lemma X12_closed_modem_is_inert_witness :
  exists m' : Modem,
    close (NewModem (mkConfig false None "")) = Ok m'
    /\ close m' = Panicked ErrInvalidStateTransition.
Proof.
  eexists. split; [evaluate|].
  refine (proj1 (proj2 (proj2 (proj2 (proj2 (proj2
            (X12_closed_modem_is_inert (NewModem (mkConfig false None "")) _ _))))))).
  evaluate.
Defined.

(** ** Dialing *)

(** In a long command in assignment mode every byte but [?] goes to the
    assignment value. *)
Lemma scanSubCmd_long_assign (number : string) :
  forall c : SubCmd,
    cmdAssign c = true -> cmdLong c = true ->
    plainNumber number = true ->
    scanSubCmd number c
    = (mkSubCmd (cmdChar c) (cmdNum c) true true (cmdQuery c)
         (cmdAssignVal c ++ number), false, "").
Proof.
  induction number as [|b number IH]; intros c Ha Hl Hp.
  - simpl. rewrite append_nil_r. destruct c; simpl in *; subst; reflexivity.
  - simpl in Hp. apply andb_true_iff in Hp as [Hb Hp].
    apply andb_true_iff in Hb as [Hlt Hq]. apply negb_true_iff in Hq.
    cbn [scanSubCmd]. rewrite Hq, Ha, Hl. cbn [negb andb].
    rewrite IH by (cbn [cmdAssign cmdLong]; first [assumption | reflexivity]).
    cbn [cmdChar cmdNum cmdQuery cmdAssignVal].
    unfold stringOfByte. rewrite Hlt.
    rewrite string_app_assoc, append_cons, append_nil_l. reflexivity.
Qed.

Lemma scanSubCmd_D (d : ascii) (number : string) :
  d = "D"%char \/ d = "d"%char ->
  scanSubCmd (String d number) emptySubCmd
  = scanSubCmd number (mkSubCmd (String d "") "" true true false "").
Proof. intros [-> | ->]; reflexivity. Qed.

Lemma dial_line (d : ascii) (number : string) (m : Modem) :
  d = "D"%char \/ d = "d"%char ->
  plainNumber number = true ->
  status m = StatusIdle ->
  outgoingCall m = true ->
  scanSubCmd (String d number) emptySubCmd
  = (mkSubCmd (String d "") "" true true false number, false, "")
  /\ processAtCommand None (String d number) m
     = Ok (RetCodeSilent,
           set_dialTasks (dialTasks m ++ [(S (stCtx m), number)])%list
             (commitStatus StatusIdle StatusDialing m)).
Proof.
  intros Hd Hp Hs Ho.
  assert (Hscan : scanSubCmd (String d number) emptySubCmd
                  = (mkSubCmd (String d "") "" true true false number, false, "")).
  { rewrite (scanSubCmd_D d number Hd).
    rewrite (scanSubCmd_long_assign number
               (mkSubCmd (String d "") "" true true false "")
               eq_refl eq_refl Hp).
    reflexivity. }
  split; [exact Hscan|].
  unfold processAtCommand. rewrite (guard_passes m (or_introl Hs)).
  cbn [String.length atLoop isEmpty]. rewrite Hscan.
  unfold dispatch. cbn [cmdChar cmdNum cmdAssign cmdQuery cmdAssignVal cmdLong].
  assert (Hup : ToUpper (String d "") = "D")
    by (destruct Hd as [-> | ->]; reflexivity).
  rewrite Hup. unfold processCommand, builtinCommand.
  cbn [String.eqb Ascii.eqb Bool.eqb]. rewrite Hs, Ho.
  cbn [ModemStatus_eqb negb]. unfold setStatus. unfold status in Hs.
  rewrite Hs. reflexivity.
Qed.

(** X13.  The number dialed is the rest of the line taken verbatim: on a
    line that starts with [D] or [d], every following ASCII byte up to the
    end of the line, short of a question mark, is the number, an equals
    sign, letters and blanks included.  While Idle with an outgoing-call
    capability, such a line makes the status Dialing without printing
    anything, starts one dial task with that number and the scope created
    by the transition, and returns the silent result. *)
Theorem X13_dial_number_verbatim (d : ascii) (number : string) (m : Modem) :
  d = "D"%char \/ d = "d"%char ->
  plainNumber number = true ->
  status m = StatusIdle ->
  outgoingCall m = true ->
  scanSubCmd (String d number) emptySubCmd
  = (mkSubCmd (String d "") "" true true false number, false, "")
  /\ processAtCommand None (String d number) m
     = Ok (RetCodeSilent,
           set_dialTasks (dialTasks m ++ [(S (stCtx m), number)])%list
             (commitStatus StatusIdle StatusDialing m)).
Proof. exact (dial_line d number m). Qed.

Lemma X13_dial_number_verbatim_witness :
  processAtCommand None "D=555 12-34 ext" (NewModem (mkConfig true None ""))
  = Ok (RetCodeSilent,
        set_dialTasks
          (dialTasks (NewModem (mkConfig true None ""))
           ++ [(S (stCtx (NewModem (mkConfig true None ""))), "=555 12-34 ext")])%list
          (commitStatus StatusIdle StatusDialing
             (NewModem (mkConfig true None "")))).
Proof.
  apply (proj2 (X13_dial_number_verbatim "D" "=555 12-34 ext"
                  (NewModem (mkConfig true None ""))
                  (or_introl eq_refl) eq_refl eq_refl eq_refl)).
Defined.

(** ** Safety *)

(** Changes that touch neither the status, the scope, the connection nor
    the dial tasks keep a modem well-formed. *)
Lemma wellFormed_same (m m' : Modem) :
  st m' = st m -> stCtx m' = stCtx m -> conn m' = conn m ->
  dialTasks m' = dialTasks m ->
  wellFormed m -> wellFormed m'.
Proof.
  unfold wellFormed, connInvariant. intros -> -> -> ->. auto.
Qed.

Lemma printRetCode_wf (r : CmdReturn) (m : Modem) :
  wellFormed m -> wellFormed (printRetCode r m).
Proof. apply wellFormed_same; destruct r; reflexivity. Qed.

(** A transition keeps the dial tasks' scopes in the past. *)
Lemma tasks_after_transition (m m' : Modem) :
  stCtx m' = S (stCtx m) -> dialTasks m' = dialTasks m ->
  wellFormed m ->
  forall (g : nat) (n : string),
    List.In (g, n) (dialTasks m') ->
    (g <= stCtx m')%nat /\ (g = stCtx m' -> st m' = StatusDialing).
Proof.
  intros Hg Hd [_ H2] g n Hin. rewrite Hd in Hin.
  destruct (H2 g n Hin) as [Hle _]. rewrite Hg. split; [lia|]. intros E. lia.
Qed.

(** The transitions the code performs on a well-formed modem succeed and
    leave it well-formed, when the connection is already what the new
    status requires. *)
Lemma setStatus_wf (next : ModemStatus) (m : Modem) :
  wellFormed m ->
  tableAllows (st m) next = true ->
  (carriesCall next = true -> conn m <> None) ->
  (carriesCall next = false -> carriesCall (st m) = false -> conn m = None) ->
  exists m' : Modem,
    setStatus next m = Ok m'
    /\ wellFormed m'
    /\ st m' = next /\ stCtx m' = S (stCtx m)
    /\ dialTasks m' = dialTasks m.
Proof.
  intros Hwf Ht Hc1 Hc2.
  assert (Hclose : specClosesConn (st m) next = true -> conn m <> None).
  { intros Hs. destruct Hwf as [[E|[Ha Hb]] _].
    - rewrite E in Ht. discriminate Ht.
    - apply Hb. destruct (st m), next; try discriminate Hs; reflexivity. }
  assert (Hex : exists m', setStatus next m = Ok m'
                 /\ conn m' = (if specClosesConn (st m) next then None
                               else conn m)
                 /\ dialTasks m' = dialTasks m).
  { unfold setStatus, closeConn.
    destruct (st m) eqn:Es, next; try discriminate Ht; simpl;
      try (eexists; split; [reflexivity|]; split; reflexivity);
      destruct (conn m) eqn:Ec;
      try (exfalso; apply Hclose; reflexivity);
      eexists; split; try reflexivity; split; reflexivity. }
  destruct Hex as (m' & Hs & Hconn & Htasks).
  destruct (setStatus_scope _ _ _ Hs) as [Hg Hst].
  exists m'. split; [exact Hs|]. split; [|auto].
  split.
  - destruct next; [right|right|right|right|right|left; exact Hst];
      unfold connInvariant; rewrite Hst, Hconn; simpl;
      destruct (st m) eqn:Es; try discriminate Ht; simpl in *;
      split; intros H;
      try reflexivity; try discriminate H; try (exfalso; apply H; reflexivity);
      try (apply Hc1; reflexivity);
      try (exfalso; apply H; apply Hc2; reflexivity).
  - apply (tasks_after_transition m m' Hg Htasks Hwf).
Qed.

Lemma wf_conn (m : Modem) :
  wellFormed m -> st m <> StatusClosed ->
  (carriesCall (st m) = true -> conn m <> None)
  /\ (carriesCall (st m) = false -> conn m = None).
Proof.
  intros [[E|[Ha Hb]] _] Hne; [contradiction|]. split; [exact Hb|].
  intros Hf. destruct (conn m) eqn:Ec; [|reflexivity].
  assert (H : carriesCall (st m) = true) by (apply Ha; discriminate).
  congruence.
Qed.

Ltac wf_unchanged Hwf :=
  eexists _, _; split; [reflexivity|];
  first [exact Hwf | revert Hwf; apply wellFormed_same; reflexivity].

Lemma builtinCommand_wf (c n : string) (a q : bool) (v : string) (m : Modem) :
  wellFormed m ->
  exists (r : CmdReturn) (m' : Modem),
    builtinCommand c n a q v m = Ok (r, m') /\ wellFormed m'.
Proof.
  intros Hwf. unfold builtinCommand.
  destruct (String.eqb c "S"); [repeat break_if; wf_unchanged Hwf|].
  destruct (String.eqb c "E"); [repeat break_if; wf_unchanged Hwf|].
  destruct (String.eqb c "V"); [repeat break_if; wf_unchanged Hwf|].
  destruct (String.eqb c "D").
  { destruct (ModemStatus_eqb (status m) StatusIdle) eqn:Es; cbn [negb];
      [|wf_unchanged Hwf].
    apply ModemStatus_eqb_eq in Es. unfold status in Es.
    destruct (outgoingCall m); [|wf_unchanged Hwf].
    destruct (wf_conn m Hwf ltac:(rewrite Es; discriminate)) as [_ Hn].
    destruct (setStatus_wf StatusDialing m Hwf) as (m1 & Hs & Hw1 & Hst & Hg & Hd).
    - rewrite Es. reflexivity.
    - discriminate.
    - intros _ _. apply Hn. rewrite Es. reflexivity.
    - rewrite Hs. cbn [bindR]. eexists _, _. split; [reflexivity|].
      destruct Hw1 as [Hi Ht]. split; [exact Hi|].
      intros g0 n0 Hin. cbn [dialTasks set_dialTasks] in Hin.
      apply in_app_or in Hin as [Hin|[Heq|[]]].
      + apply (Ht g0 n0 Hin).
      + injection Heq as <- <-. split; [apply Nat.le_refl|]. intros _. exact Hst. }
  destruct (String.eqb c "A").
  { destruct (ModemStatus_eqb (status m) StatusIdle); [wf_unchanged Hwf|].
    destruct (ModemStatus_eqb (status m) StatusRinging) eqn:Es; cbn [negb];
      [|wf_unchanged Hwf].
    apply ModemStatus_eqb_eq in Es. unfold status in Es.
    destruct (wf_conn m Hwf ltac:(rewrite Es; discriminate)) as [Hc _].
    destruct (setStatus_wf StatusConnected m Hwf) as (m1 & Hs & Hw1 & _).
    - rewrite Es. reflexivity.
    - intros _. apply Hc. rewrite Es. reflexivity.
    - discriminate.
    - rewrite Hs. eexists _, _. split; [reflexivity | exact Hw1]. }
  destruct (String.eqb c "H").
  { destruct (ModemStatus_eqb (status m) StatusConnected
              || ModemStatus_eqb (status m) StatusConnectedCmd) eqn:Es;
      [|wf_unchanged Hwf].
    assert (Hst : st m = StatusConnected \/ st m = StatusConnectedCmd).
    { apply orb_true_iff in Es as [E|E]; apply ModemStatus_eqb_eq in E;
        [left|right]; exact E. }
    destruct (setStatus_wf StatusIdle m Hwf) as (m1 & Hs & Hw1 & _).
    - destruct Hst as [-> | ->]; reflexivity.
    - discriminate.
    - intros _ Hf. destruct Hst as [E|E]; rewrite E in Hf; discriminate Hf.
    - rewrite Hs. eexists _, _. split; [reflexivity | exact Hw1]. }
  destruct (String.eqb c "O"); [|wf_unchanged Hwf].
  destruct (ModemStatus_eqb (status m) StatusConnectedCmd) eqn:Es; cbn [negb];
    [|wf_unchanged Hwf].
  apply ModemStatus_eqb_eq in Es. unfold status in Es.
  destruct (wf_conn m Hwf ltac:(rewrite Es; discriminate)) as [Hc _].
  destruct (setStatus_wf StatusConnected m Hwf) as (m1 & Hs & Hw1 & _).
  - rewrite Es. reflexivity.
  - intros _. apply Hc. rewrite Es. reflexivity.
  - discriminate.
  - rewrite Hs. eexists _, _. split; [reflexivity | exact Hw1].
Qed.

Lemma processCommand_wf (hook : option CommandHookType) (c n : string)
    (a q : bool) (v : string) (m : Modem) :
  hookSafe hook -> wellFormed m ->
  exists (r : CmdReturn) (m' : Modem),
    processCommand hook c n a q v m = Ok (r, m') /\ wellFormed m'.
Proof.
  intros Hh Hwf. unfold processCommand. destruct hook as [h|].
  - destruct (Hh h eq_refl m c n a q v Hwf) as (r1 & m1 & Hc & Hw1).
    rewrite Hc. cbn [bindR fst snd].
    destruct r1; try (eexists _, _; split; [reflexivity | exact Hw1]).
    apply builtinCommand_wf. exact Hw1.
  - apply builtinCommand_wf. exact Hwf.
Qed.

Lemma atLoop_wf (hook : option CommandHookType) (fuel : nat) :
  hookSafe hook ->
  forall (buf : string) (cmdRet : CmdReturn) (m : Modem),
    wellFormed m ->
    exists (r : CmdReturn) (e : bool) (m' : Modem),
      atLoop hook fuel buf cmdRet m = Ok (r, e, m') /\ wellFormed m'.
Proof.
  intros Hh. induction fuel as [|fuel IH]; intros buf cmdRet m Hwf; simpl.
  - eexists _, _, _. split; [reflexivity | exact Hwf].
  - destruct (isEmpty buf);
      [eexists _, _, _; split; [reflexivity | exact Hwf]|].
    destruct (scanSubCmd buf emptySubCmd) as [[c e0] rest].
    destruct e0; [eexists _, _, _; split; [reflexivity | exact Hwf]|].
    unfold dispatch.
    destruct (processCommand_wf hook (ToUpper (cmdChar c)) (cmdNum c)
                (cmdAssign c) (cmdQuery c) (cmdAssignVal c) m Hh Hwf)
      as (r1 & m1 & Hc & Hw1).
    rewrite Hc. cbn [bindR fst snd].
    destruct (CmdReturn_eqb r1 RetCodeError);
      [eexists _, _, _; split; [reflexivity | exact Hw1]|].
    destruct (cmdLong c);
      [eexists _, _, _; split; [reflexivity | exact Hw1]|].
    apply IH. exact Hw1.
Qed.

Lemma processAtCommand_wf (hook : option CommandHookType) (cmd : string)
    (m : Modem) :
  hookSafe hook -> wellFormed m ->
  exists (r : CmdReturn) (m' : Modem),
    processAtCommand hook cmd m = Ok (r, m') /\ wellFormed m'.
Proof.
  intros Hh Hwf. unfold processAtCommand.
  break_if; [eexists _, _; split; [reflexivity | exact Hwf]|].
  destruct (atLoop_wf hook (String.length cmd) Hh cmd RetCodeOk m Hwf)
    as (r & e & m' & Hl & Hw).
  rewrite Hl. cbn [bindR]. eexists _, _. split; [reflexivity | exact Hw].
Qed.

Lemma ttyWriteStr_wf (s : string) (m : Modem) :
  wellFormed m -> wellFormed (ttyWriteStr s m).
Proof. apply wellFormed_same; reflexivity. Qed.

Lemma submit_wf (hook : option CommandHookType) (cmd : string) (m : Modem) :
  hookSafe hook -> wellFormed m ->
  exists m' : Modem, submit hook cmd m = Ok m' /\ wellFormed m'.
Proof.
  intros Hh Hwf. unfold submit.
  destruct (processAtCommand_wf hook cmd (ttyWriteStr CR m) Hh
              (ttyWriteStr_wf CR m Hwf)) as (r & m' & Hp & Hw).
  rewrite Hp. cbn [bindR fst snd]. eexists. split; [reflexivity|].
  apply printRetCode_wf. exact Hw.
Qed.

Lemma ttyReadByte_wf (hook : option CommandHookType) (b : ascii)
    (t : ReadTask) (m : Modem) :
  hookSafe hook -> wellFormed m ->
  exists (t' : ReadTask) (m' : Modem),
    ttyReadByte hook b t m = Ok (t', m') /\ wellFormed m'.
Proof.
  intros Hh Hwf. unfold ttyReadByte.
  destruct (ModemStatus_eqb (status m) StatusConnected).
  { destruct (conn m); eexists _, _; (split; [reflexivity|]);
      [revert Hwf; apply wellFormed_same; reflexivity | exact Hwf]. }
  destruct (ModemStatus_eqb (status m) StatusDialing) eqn:Es.
  { apply ModemStatus_eqb_eq in Es. unfold status in Es.
    destruct (wf_conn m Hwf ltac:(rewrite Es; discriminate)) as [_ Hn].
    destruct (setStatus_wf StatusIdle m Hwf) as (m1 & Hs & Hw1 & _).
    - rewrite Es. reflexivity.
    - discriminate.
    - intros _ _. apply Hn. rewrite Es. reflexivity.
    - rewrite Hs. eexists _, _. split; [reflexivity | exact Hw1]. }
  assert (Hecho : wellFormed (if echo m then ttyWriteByte b m else m)).
  { destruct (echo m); [apply ttyWriteStr_wf|]; exact Hwf. }
  destruct (negb (atFlag t)).
  - destruct (upperIs b "A");
      [eexists _, _; split; [reflexivity | exact Hecho]|].
    destruct (aFlag t && Ascii.eqb b "/").
    { destruct (submit_wf hook (lastCmd t) _ Hh Hecho) as (m2 & Hs & Hw2).
      rewrite Hs. eexists _, _. split; [reflexivity | exact Hw2]. }
    destruct (aFlag t && upperIs b "T");
      eexists _, _; (split; [reflexivity | exact Hecho]).
  - destruct (byteZ b =? 127).
    { destruct (0 <? String.length (buffer t))%nat;
        eexists _, _; (split; [reflexivity|]);
        [apply ttyWriteStr_wf|]; exact Hwf. }
    destruct (byteZ b =? 13).
    { destruct (submit_wf hook (buffer t) m Hh Hwf) as (m1 & Hs & Hw1).
      rewrite Hs. eexists _, _. split; [reflexivity | exact Hw1]. }
    destruct ((String.length (buffer t) <? 100)%nat && IsPrint b);
      eexists _, _; (split; [reflexivity|]); [exact Hecho | exact Hwf].
Qed.

Lemma incomingCall_wf (c : Conn) (m : Modem) :
  wellFormed m ->
  exists (ok : bool) (m' : Modem),
    incomingCall (Some c) m = Ok (ok, m') /\ wellFormed m'.
Proof.
  intros Hwf. unfold incomingCall, status.
  destruct (st m) eqn:Es;
    try (eexists _, _; split; [reflexivity | exact Hwf]).
  pose proof Hwf as [_ Htasks].
  unfold setStatus. rewrite Es. cbn [bindR].
  eexists _, _. split; [reflexivity|]. split.
  - right. split; intros _; [reflexivity | discriminate].
  - intros g n Hin. cbn in Hin. destruct (Htasks g n Hin) as [Hle _].
    cbn. split; [lia|]. intros E. lia.
Qed.

Lemma close_wf (m : Modem) :
  wellFormed m -> st m <> StatusClosed ->
  exists m' : Modem, close m = Ok m' /\ wellFormed m'.
Proof.
  intros Hwf Hne. pose proof Hwf as [_ Htasks]. unfold close, setStatus.
  destruct (st m) eqn:Es; try contradiction; cbn [bindR];
    (eexists; split; [reflexivity|]); (split; [left; reflexivity|]);
    intros g n Hin; cbn in Hin; destruct (Htasks g n Hin) as [Hle _];
    cbn; (split; [lia|]); intros E; lia.
Qed.

Lemma processDialing_wf (g : nat) (out : DialOutcome) (m : Modem) :
  wellFormed m ->
  (exists n : string, List.In (g, n) (dialTasks m)) ->
  out <> DialConn None ->
  exists m' : Modem, processDialing g out m = Ok m' /\ wellFormed m'.
Proof.
  intros Hwf [n Hin] Hout. unfold processDialing.
  destruct (ctxErr g m) eqn:Ec.
  - destruct out as [[c|]|]; try contradiction;
      (eexists; split; [reflexivity|]);
      [revert Hwf; apply wellFormed_same; reflexivity | exact Hwf].
  - pose proof Hwf as [_ Htasks].
    destruct (Htasks g n Hin) as [Hle Hlive].
    unfold ctxErr in Ec. apply orb_false_iff in Ec as [Ec _].
    apply Nat.ltb_ge in Ec.
    assert (Es : st m = StatusDialing) by (apply Hlive; lia).
    destruct (wf_conn m Hwf ltac:(rewrite Es; discriminate)) as [_ Hn].
    destruct out as [[c|]|]; try contradiction.
    + unfold setStatus. cbn [st set_conn]. rewrite Es. cbn [bindR].
      eexists. split; [reflexivity|]. split.
      * right. split; intros _; [reflexivity | discriminate].
      * intros g0 n0 Hin0. cbn in Hin0. destruct (Htasks g0 n0 Hin0) as [Hle0 _].
        cbn. split; [lia|]. intros E. lia.
    + destruct (setStatus_wf StatusIdle m Hwf) as (m1 & Hs & Hw1 & _).
      * rewrite Es. reflexivity.
      * discriminate.
      * intros _ _. apply Hn. rewrite Es. reflexivity.
      * exists m1. split; [exact Hs | exact Hw1].
Qed.

Lemma NewModem_wf (config : ModemConfig) : wellFormed (NewModem config).
Proof.
  split.
  - right. split; intros H; [exfalso; apply H; reflexivity | discriminate H].
  - intros g n [].
Qed.

Lemma exec_wf (hook : option CommandHookType) (ev : Event) (s : System) :
  hookSafe hook -> wellFormed (modem s) -> allowed ev (modem s) ->
  exists s' : System, exec hook ev s = Ok s' /\ wellFormed (modem s').
Proof.
  intros Hh Hwf Hal. destruct ev as [c|cmd|str| |b|g out]; cbn [exec].
  - destruct c as [c|]; [|exfalso; apply Hal; reflexivity].
    destruct (incomingCall_wf c (modem s) Hwf) as (ok & m' & H & Hw).
    rewrite H. eexists. split; [reflexivity | exact Hw].
  - destruct (processAtCommand_wf hook cmd (modem s) Hh Hwf)
      as (r & m' & H & Hw).
    rewrite H. eexists. split; [reflexivity | exact Hw].
  - eexists. split; [reflexivity|]. apply ttyWriteStr_wf. exact Hwf.
  - destruct (close_wf (modem s) Hwf Hal) as (m' & H & Hw).
    rewrite H. eexists. split; [reflexivity | exact Hw].
  - destruct (ttyReadByte_wf hook b (reader s) (modem s) Hh Hwf)
      as (t' & m' & H & Hw).
    rewrite H. eexists. split; [reflexivity | exact Hw].
  - destruct Hal as [Hin Hout].
    destruct (processDialing_wf g out (modem s) Hwf Hin Hout) as (m' & H & Hw).
    rewrite H. eexists. split; [reflexivity | exact Hw].
Qed.

(** X14.  The modem does not panic.  Start from a well-formed modem (a new
    one is) and let the environment do, in any order and any number of
    times: inject incoming calls with streams that are not nil, submit
    command lines, write to the terminal, type bytes, let started dial
    tasks resume with an error or a stream that is not nil, and close the
    modem if it is not Closed yet.  With a command hook that itself returns
    and keeps the modem well-formed, every operation returns, and the
    modem stays well-formed: unless Closed, the connection is present
    exactly in Ringing, Connected and ConnectedCmd, and no dial task holds
    a live scope outside Dialing. *)
Theorem X14_no_panic (hook : option CommandHookType) (evs : list Event) :
  hookSafe hook ->
  forall s : System,
    wellFormed (modem s) ->
    admissible hook evs s ->
    exists s' : System, run hook evs s = Ok s' /\ wellFormed (modem s').
Proof.
  intros Hh. induction evs as [|ev evs IH]; intros s Hwf Had; cbn [run].
  - exists s. split; [reflexivity | exact Hwf].
  - destruct Had as [Hal Hnext].
    destruct (exec_wf hook ev s Hh Hwf Hal) as (s1 & He & Hw1).
    rewrite He. cbn [bindR]. apply IH; [exact Hw1|].
    apply Hnext. exact He.
Qed.

Lemma X14_no_panic_witness :
  exists s' : System,
    run None
      [EvAtCommand "D5551234"; EvTtyByte "x";
       EvDialReturn 1 (DialConn (Some 7%nat));
       EvIncomingCall (Some 3%nat); EvTtyByte "A"; EvClose]
      (mkSystem (NewModem (mkConfig true None "")) newReadTask) = Ok s'
    /\ wellFormed (modem s').
Proof.
  apply (X14_no_panic None).
  - intros h H. discriminate H.
  - apply NewModem_wf.
  - split; [exact I|]. intros s1 H1. vm_compute in H1. injection H1 as <-.
    split; [exact I|]. intros s2 H2. vm_compute in H2. injection H2 as <-.
    split; [split; [exists "5551234"; left; reflexivity | discriminate]|].
    intros s3 H3. vm_compute in H3. injection H3 as <-.
    split; [discriminate|]. intros s4 H4. vm_compute in H4. injection H4 as <-.
    split; [exact I|]. intros s5 H5. vm_compute in H5. injection H5 as <-.
    split; [discriminate|]. intros s6 H6. exact I.
Defined.

(** ** Result codes in terse form *)

(** X15.  In terse form the terminal output tells all the result codes
    apart.  The silent code prints nothing; the skip code prints an empty
    line, two carriage returns with nothing between them; each of the
    other seven codes prints one decimal digit between two carriage
    returns; and no two different codes, these two included, leave the
    same terminal output. *)
Theorem X15_terse_codes_distinct (m : Modem) (r1 r2 : CmdReturn) :
  shortForm m = true ->
  (r1 = RetCodeSilent -> printRetCode r1 m = m)
  /\ (r1 = RetCodeSkip ->
      ttyOut (printRetCode r1 m) = app (ttyOut m) [CR ++ CR])
  /\ (r1 <> RetCodeSilent -> r1 <> RetCodeSkip ->
      exists d : ascii,
        checkValidNumChar d = true
        /\ retStr m r1 = String d ""
        /\ ttyOut (printRetCode r1 m)
           = app (ttyOut m) [CR ++ String d "" ++ CR])
  /\ (ttyOut (printRetCode r1 m) = ttyOut (printRetCode r2 m) -> r1 = r2).
Proof.
  intros Hs.
  assert (Hout : forall r, r <> RetCodeSilent ->
            ttyOut (printRetCode r m)
            = app (ttyOut m) [CR ++ retStr m r ++ CR]).
  { intros r Hr. rewrite printRetCode_framed by exact Hr.
    unfold ttyWriteStr, cr. rewrite Hs. reflexivity. }
  assert (Hgrow : forall x : string, ttyOut m <> app (ttyOut m) [x]).
  { intros x E. apply (f_equal (@List.length string)) in E.
    rewrite List.length_app in E. simpl in E. lia. }
  split; [intros ->; reflexivity|].
  split.
  { intros ->. rewrite Hout by discriminate.
    unfold retStr. rewrite Hs. reflexivity. }
  split.
  { intros H1 H2. rewrite Hout by exact H1. unfold retStr. rewrite Hs.
    destruct r1; try contradiction;
      eexists; (split; [|split; reflexivity]); reflexivity. }
  destruct (CmdReturn_eqb r1 RetCodeSilent) eqn:E1;
    destruct (CmdReturn_eqb r2 RetCodeSilent) eqn:E2.
  - apply CmdReturn_eqb_eq in E1, E2. congruence.
  - apply CmdReturn_eqb_eq in E1. subst r1.
    assert (H2 : r2 <> RetCodeSilent)
      by (intros ->; discriminate E2).
    rewrite (Hout r2 H2). cbn [printRetCode]. intros E.
    exfalso. exact (Hgrow _ E).
  - apply CmdReturn_eqb_eq in E2. subst r2.
    assert (H1 : r1 <> RetCodeSilent)
      by (intros ->; discriminate E1).
    rewrite (Hout r1 H1). cbn [printRetCode]. intros E.
    exfalso. exact (Hgrow _ (eq_sym E)).
  - assert (H1 : r1 <> RetCodeSilent) by (intros ->; discriminate E1).
    assert (H2 : r2 <> RetCodeSilent) by (intros ->; discriminate E2).
    rewrite (Hout r1 H1), (Hout r2 H2). unfold retStr. rewrite Hs.
    intros H. apply app_inv_head in H. injection H as H.
    destruct r1, r2; try reflexivity; try contradiction; discriminate H.
Qed.

Lemma X15_terse_codes_distinct_witness :
  ttyOut (printRetCode RetCodeSkip
            (set_shortForm true (NewModem (mkConfig false None ""))))
  = [CR ++ CR]
  /\ (ttyOut (printRetCode RetCodeBusy
                (set_shortForm true (NewModem (mkConfig false None ""))))
      = ttyOut (printRetCode RetCodeSkip
                  (set_shortForm true (NewModem (mkConfig false None ""))))
      -> RetCodeBusy = RetCodeSkip).
Proof.
  split.
  - exact (proj1 (proj2 (X15_terse_codes_distinct
                           (set_shortForm true
                              (NewModem (mkConfig false None "")))
                           RetCodeSkip RetCodeOk eq_refl)) eq_refl).
  - exact (proj2 (proj2 (proj2 (X15_terse_codes_distinct
                                  (set_shortForm true
                                     (NewModem (mkConfig false None "")))
                                  RetCodeBusy RetCodeSkip eq_refl)))).
Defined.

(** ** Incoming calls *)

(** X16.  [incomingCall] never panics and never writes to the terminal (no
    RING is printed).  It succeeds exactly when the status is Idle: then
    the status becomes Ringing, the stream given becomes the connection
    and the status scope is replaced; otherwise the caller gets the busy
    error and the modem is untouched, a Closed modem included. *)
Theorem X16_incoming_call (c : option Conn) (m : Modem) :
  exists (ok : bool) (m' : Modem),
    incomingCall c m = Ok (ok, m')
    /\ ttyOut m' = ttyOut m
    /\ (ok = true <-> status m = StatusIdle)
    /\ (ok = false -> m' = m)
    /\ (ok = true ->
        st m' = StatusRinging /\ conn m' = c /\ stCtx m' = S (stCtx m)
        /\ stdout m' = (stdout m ++ [(StatusIdle, StatusRinging)])%list).
Proof.
  unfold incomingCall, status, setStatus.
  destruct (st m) eqn:Es; cbn [bindR];
    eexists _, _; (split; [reflexivity|]); (split; [reflexivity|]);
    (split; [split; intros H; try reflexivity; discriminate H|]);
    (split; [intros H; try reflexivity; discriminate H|]);
    intros H; try discriminate H.
  repeat split.
Qed.

(** ** Built-in commands *)

(** X17.  [E] and [V] accept exactly the arguments whose digits denote 0
    or 1, leading zeros and any number of digits allowed: 0 turns echo off
    (selects the terse form), 1 turns echo on (selects the verbose form),
    and any larger number is an error that changes nothing. *)
Theorem X17_echo_and_form_arguments (n : string) (a q : bool) (v : string)
    (m : Modem) :
  allDigits n = true ->
  (decimal n = 0 ->
   processCommand None "E" n a q v m = Ok (RetCodeOk, set_echo false m)
   /\ processCommand None "V" n a q v m = Ok (RetCodeOk, set_shortForm true m))
  /\ (decimal n = 1 ->
      processCommand None "E" n a q v m = Ok (RetCodeOk, set_echo true m)
      /\ processCommand None "V" n a q v m
         = Ok (RetCodeOk, set_shortForm false m))
  /\ (2 <= decimal n ->
      processCommand None "E" n a q v m = Ok (RetCodeError, m)
      /\ processCommand None "V" n a q v m = Ok (RetCodeError, m)).
Proof.
  intros Hd. pose proof (Atoi_digits n Hd) as Ha.
  unfold processCommand, builtinCommand. cbn [String.eqb Ascii.eqb Bool.eqb].
  split; [|split]; intros H.
  - rewrite Ha, H. split; reflexivity.
  - rewrite Ha, H. split; reflexivity.
  - assert (H2 : 2 <= Atoi n) by (rewrite Ha; unfold maxInt64; lia).
    destruct (Atoi n =? 0) eqn:E0; [apply Z.eqb_eq in E0; lia|].
    destruct (Atoi n =? 1) eqn:E1; [apply Z.eqb_eq in E1; lia|].
    split; reflexivity.
Qed.

Lemma X17_echo_and_form_arguments_witness :
  processCommand None "E" "000" false false ""
    (NewModem (mkConfig false None ""))
  = Ok (RetCodeOk, set_echo false (NewModem (mkConfig false None "")))
  /\ processCommand None "V" "000" false false ""
       (NewModem (mkConfig false None ""))
     = Ok (RetCodeOk, set_shortForm true (NewModem (mkConfig false None ""))).
Proof.
  apply (proj1 (X17_echo_and_form_arguments "000" false false ""
                  (NewModem (mkConfig false None "")) eq_refl)).
  reflexivity.
Defined.

(** X18.  Call control by status, without a command hook.  While Idle the
    line [H] is a no-op that returns OK, [O] returns the error result and
    [A] returns the no-carrier result, each leaving the modem as it was.
    While ConnectedCmd with a connection stored, [H] prints NO CARRIER,
    closes the connection once, clears it and makes the status Idle; [O]
    prints the connect result and makes the status Connected, keeping the
    connection; both return the silent result; [A] and [D] return the
    error result and change nothing. *)
Theorem X18_call_control (m : Modem) (c : Conn) :
  (status m = StatusIdle ->
   processAtCommand None "H" m = Ok (RetCodeOk, m)
   /\ processAtCommand None "O" m = Ok (RetCodeError, m)
   /\ processAtCommand None "A" m = Ok (RetCodeNoCarrier, m))
  /\ (status m = StatusConnectedCmd -> conn m = Some c ->
      processAtCommand None "H" m
      = Ok (RetCodeSilent,
            commitStatus StatusConnectedCmd StatusIdle
              (set_conn None
                 (set_connClosed (connClosed m ++ [c])%list
                    (printRetCode RetCodeNoCarrier m))))
      /\ processAtCommand None "O" m
         = Ok (RetCodeSilent,
               commitStatus StatusConnectedCmd StatusConnected
                 (printRetCode RetCodeConnect m))
      /\ processAtCommand None "A" m = Ok (RetCodeError, m)
      /\ processAtCommand None "D" m = Ok (RetCodeError, m)).
Proof.
  split.
  - intros Hs. unfold processAtCommand. rewrite (guard_passes m (or_introl Hs)).
    cbn [String.length atLoop isEmpty]. unfold dispatch, processCommand.
    cbv [scanSubCmd emptySubCmd cmdChar cmdNum cmdAssign cmdQuery cmdAssignVal
         cmdLong Ascii.eqb Bool.eqb isEmpty negb orb andb checkValidCmdChar
         byteZ N_of_ascii N_of_digits Z.of_N Z.leb Z.compare Pos.compare
         Pos.compare_cont N.add N.mul Pos.add Pos.mul Pos.succ
         String.eqb append stringOfByte Z.ltb ToUpper upperByte
         String.length Nat.ltb Nat.leb].
    unfold builtinCommand. cbn [String.eqb Ascii.eqb Bool.eqb].
    rewrite Hs. split; [|split]; reflexivity.
  - intros Hs Hc. unfold processAtCommand.
    rewrite (guard_passes m (or_intror Hs)).
    cbn [String.length atLoop isEmpty]. unfold dispatch, processCommand.
    cbv [scanSubCmd emptySubCmd cmdChar cmdNum cmdAssign cmdQuery cmdAssignVal
         cmdLong Ascii.eqb Bool.eqb isEmpty negb orb andb checkValidCmdChar
         byteZ N_of_ascii N_of_digits Z.of_N Z.leb Z.compare Pos.compare
         Pos.compare_cont N.add N.mul Pos.add Pos.mul Pos.succ
         String.eqb append stringOfByte Z.ltb ToUpper upperByte
         String.length Nat.ltb Nat.leb].
    unfold builtinCommand. cbn [String.eqb Ascii.eqb Bool.eqb].
    rewrite Hs. cbn [ModemStatus_eqb negb orb].
    unfold setStatus, closeConn. unfold status in Hs.
    rewrite Hs. cbn [bindR]. 
    assert (Hc' : conn (printRetCode RetCodeNoCarrier m) = Some c) by exact Hc.
    rewrite Hc'. split; [|split; [|split]]; reflexivity.
Qed.

Lemma X18_call_control_witness :
  processAtCommand None "H" (NewModem (mkConfig false None ""))
  = Ok (RetCodeOk, NewModem (mkConfig false None ""))
  /\ processAtCommand None "O"
       (set_conn (Some 7%nat)
          (set_st StatusConnectedCmd (NewModem (mkConfig false None ""))))
     = Ok (RetCodeSilent,
           commitStatus StatusConnectedCmd StatusConnected
             (printRetCode RetCodeConnect
                (set_conn (Some 7%nat)
                   (set_st StatusConnectedCmd
                      (NewModem (mkConfig false None "")))))).
Proof.
  split.
  - apply (proj1 (proj1 (X18_call_control
                           (NewModem (mkConfig false None "")) 0%nat) eq_refl)).
  - apply (proj1 (proj2 (proj2 (X18_call_control 
             (set_conn (Some 7%nat)
                (set_st StatusConnectedCmd (NewModem (mkConfig false None ""))))
             7%nat) eq_refl eq_refl))).
Defined.

(** ** Chaining *)

Lemma digit_not_special (b : ascii) :
  checkValidNumChar b = true ->
  Ascii.eqb b "?" = false /\ Ascii.eqb b "=" = false
  /\ Ascii.eqb b "+" = false /\ Ascii.eqb b "#" = false.
Proof.
  intros H. pose proof (digit_range b H) as Hr.
  repeat split; apply Ascii.eqb_neq; intros ->; vm_compute in Hr;
    destruct Hr as [H1 H2]; first [apply H1; reflexivity | apply H2; reflexivity].
Qed.

Lemma letter_not_special (l : ascii) :
  checkValidCmdChar l = true ->
  Ascii.eqb l "?" = false /\ Ascii.eqb l "=" = false
  /\ Ascii.eqb l "+" = false /\ Ascii.eqb l "#" = false
  /\ Ascii.eqb l "&" = false /\ (byteZ l <? 128) = true.
Proof.
  unfold checkValidCmdChar. intros H.
  assert (Hr : 65 <= byteZ l <= 122).
  { apply orb_true_iff in H as [H|H]; apply andb_true_iff in H as [H1 H2];
      apply Z.leb_le in H1; apply Z.leb_le in H2; lia. }
  repeat split; try (apply Z.ltb_lt; lia);
    apply Ascii.eqb_neq; intros ->; vm_compute in Hr;
    destruct Hr as [H1 H2]; first [apply H1; reflexivity | apply H2; reflexivity].
Qed.

(** After the name of a short command its digits are read up to the first
    byte that is not one. *)
Lemma scanSubCmd_digits (l : ascii) (n : string) :
  forall (num rest : string),
    checkValidCmdChar l = true ->
    allDigits n = true ->
    chainBreak rest = true ->
    scanSubCmd (n ++ rest) (mkSubCmd (String l "") num false false false "")
    = (mkSubCmd (String l "") (num ++ n) false false false "", false, rest).
Proof.
  intros num rest Hl. revert num.
  destruct (letter_not_special l Hl) as (_ & _ & _ & _ & Hamp & _).
  assert (Hname : isEmpty (String l "") || String.eqb (String l "") "&" = false).
  { cbn [isEmpty orb String.eqb]. rewrite Hamp. reflexivity. }
  induction n as [|b n IH]; intros num Hd Hb.
  - rewrite append_nil_l, append_nil_r. destruct rest as [|b0 r]; [reflexivity|].
    cbn [chainBreak] in Hb.
    apply andb_true_iff in Hb as [Hb Hh]. apply andb_true_iff in Hb as [Hb Hp].
    apply andb_true_iff in Hb as [Hb He]. apply andb_true_iff in Hb as [Hn Hq].
    apply negb_true_iff in Hh, Hp, He, Hq, Hn.
    cbn [scanSubCmd cmdChar cmdAssign cmdLong].
    rewrite Hq, Hp, Hh, He. cbn [orb negb]. rewrite Hname, Hn. reflexivity.
  - cbn [allDigits] in Hd. apply andb_true_iff in Hd as [Hdb Hd].
    destruct (digit_not_special b Hdb) as (Hq & He & Hp & Hh).
    rewrite append_cons. cbn [scanSubCmd cmdChar cmdAssign cmdLong].
    rewrite Hq, He, Hp, Hh. cbn [orb negb]. rewrite Hname, Hdb.
    cbn [cmdNum cmdQuery cmdAssignVal].
    rewrite (IH (num ++ stringOfByte b) Hd Hb).
    assert (Hs : stringOfByte b = String b "").
    { unfold stringOfByte. pose proof (digit_range b Hdb).
      replace (byteZ b <? 128) with true by (symmetry; apply Z.ltb_lt; lia).
      reflexivity. }
    rewrite Hs, string_app_assoc, append_cons, append_nil_l. reflexivity.
Qed.

(** X19.  Chaining is sequential composition.  When a line starts with a
    short command (a letter other than [D] and [d], then digits) followed by
    the end of the line or by a byte that can neither extend it nor make
    the line malformed, the loop over the line executes that command with
    those digits and, unless it returned the error result, goes on with
    the loop over the rest of the line in the modem the command left. *)
Theorem X19_chaining_composes (hook : option CommandHookType) (l : ascii)
    (n rest : string) (cmdRet : CmdReturn) (m : Modem) :
  checkValidCmdChar l = true ->
  l <> "D"%char -> l <> "d"%char ->
  allDigits n = true ->
  chainBreak rest = true ->
  scanSubCmd (String l (n ++ rest)) emptySubCmd
  = (mkSubCmd (String l "") n false false false "", false, rest)
  /\ atLoop hook (String.length (String l (n ++ rest))) (String l (n ++ rest))
       cmdRet m
     = (rm <-! processCommand hook (String (upperByte l) "") n false false "" m;
        if CmdReturn_eqb (fst rm) RetCodeError
        then Ok (fst rm, false, snd rm)
        else atLoop hook (String.length rest) rest (fst rm) (snd rm)).
Proof.
  intros Hl HD Hd Hn Hb.
  destruct (letter_not_special l Hl) as (Hq & He & Hp & Hh & Hamp & Hlt).
  assert (Hscan : scanSubCmd (String l (n ++ rest)) emptySubCmd
                  = (mkSubCmd (String l "") n false false false "", false, rest)).
  { cbn [scanSubCmd emptySubCmd cmdChar cmdAssign cmdLong isEmpty].
    rewrite Hq, He, Hp, Hh, Hamp, Hl. cbn [orb negb andb].
    cbn [cmdNum cmdQuery cmdAssignVal].
    rewrite append_nil_l. unfold stringOfByte. rewrite Hlt.
    assert (Hnd : String.eqb (String l "") "d" || String.eqb (String l "") "D"
                  = false).
    { cbn [String.eqb]. apply orb_false_iff. split.
      - destruct (Ascii.eqb l "d") eqn:E; [|reflexivity].
        apply Ascii.eqb_eq in E. contradiction.
      - destruct (Ascii.eqb l "D") eqn:E; [|reflexivity].
        apply Ascii.eqb_eq in E. contradiction. }
    rewrite Hnd.
    apply (scanSubCmd_digits l n "" rest Hl Hn Hb). }
  split; [exact Hscan|].
  cbn [String.length atLoop isEmpty]. rewrite Hscan. unfold dispatch.
  cbn [cmdChar cmdNum cmdAssign cmdQuery cmdAssignVal cmdLong ToUpper].
  destruct (processCommand hook (String (upperByte l) "") n false false "" m)
    as [[r1 m1]|p]; cbn [bindR fst snd]; [|reflexivity].
  destruct (CmdReturn_eqb r1 RetCodeError); [reflexivity|].
  rewrite string_length_app, Nat.add_comm.
  apply atLoop_fuel. lia.
Qed.

Lemma X19_chaining_composes_witness :
  scanSubCmd "E0V1" emptySubCmd
  = (mkSubCmd "E" "0" false false false "", false, "V1").
Proof.
  apply (proj1 (X19_chaining_composes None "E" "0" "V1" RetCodeOk
                  (NewModem (mkConfig false None ""))
                  eq_refl ltac:(discriminate) ltac:(discriminate)
                  eq_refl eq_refl)).
Defined.

(** X20. A dial typed at the terminal of a fresh modem, end to end: the
    line [ATD<number>] followed by a carriage return is echoed byte by
    byte, hands the number to one dial task and leaves the modem Dialing
    with nothing printed but the carriage return; when that task comes
    back with a stream the modem stores it, prints the connect string
    between line endings and is Connected; and whatever is typed
    afterwards goes to that stream, byte for byte, with no echo. *)
Theorem X20_typed_dial_goes_online (cs number input : string) (c : Conn) :
  plainNumber number = true ->
  allPrint number = true ->
  (String.length number < 100)%nat ->
  let m0 := NewModem (mkConfig true None cs) in
  let reader := mkReadTask false false "" (String "D" number) in
  exists m1 m2 m3,
    ttyReadBytes None (String "A" (String "T" (String "D" number ++ CR)))
      newReadTask m0 = Ok (reader, m1)
    /\ status m1 = StatusDialing
    /\ dialTasks m1 = [(1%nat, number)]
    /\ ttyOut m1
       = app (List.map (fun b => String b "")
                (list_ascii_of_string (String "A" (String "T" (String "D" number)))))
             [CR]
    /\ processDialing 1 (DialConn (Some c)) m1 = Ok m2
    /\ status m2 = StatusConnected
    /\ conn m2 = Some c
    /\ ttyOut m2 = app (ttyOut m1) [CRLF ++ connectStr m0 ++ CRLF]
    /\ ttyReadBytes None input reader m2 = Ok (reader, m3)
    /\ connOut m3 = List.map (fun b => (c, b)) (list_ascii_of_string input)
    /\ ttyOut m3 = ttyOut m2
    /\ status m3 = StatusConnected.
Proof.
  intros Hn Hp Hlen m0 reader.
  assert (Hline :
    ttyReadBytes None (String "A" (String "T" (String "D" number ++ CR)))
      newReadTask m0
    = (m2 <-! submit None (String "D" number)
                (echoBytes (String "A" (String "T" (String "D" number))) m0);
       Ok (reader, m2))).
  { apply (line_entry None "A" "T" (String "D" number) newReadTask m0);
      try reflexivity; try discriminate; try (left; reflexivity).
    - cbn [allPrint]. rewrite Hp. reflexivity.
    - cbn [String.length]. lia. }
  rewrite Hline. clear Hline.
  unfold submit.
  set (mE := ttyWriteStr CR
               (echoBytes (String "A" (String "T" (String "D" number))) m0)).
  destruct (dial_line "D" number mE (or_introl eq_refl) Hn eq_refl eq_refl)
    as [_ Hdial].
  rewrite Hdial. clear Hdial.
  cbn [bindR fst snd].
  set (m1 := printRetCode RetCodeSilent _).
  exists m1.
  assert (H2 : processDialing 1 (DialConn (Some c)) m1
               = setStatus StatusConnected (set_conn (Some c) m1))
    by reflexivity.
  assert (H3 : exists m2, setStatus StatusConnected (set_conn (Some c) m1) = Ok m2
               /\ status m2 = StatusConnected /\ conn m2 = Some c
               /\ ttyOut m2 = app (ttyOut m1) [CRLF ++ connectStr m0 ++ CRLF]
               /\ ctxCancelled m2 = false).
  { eexists. split; [reflexivity|]. repeat split. }
  destruct H3 as (m2 & E2 & S2 & C2 & O2 & L2).
  exists m2.
  exists (set_connOut
            (connOut m2 ++ List.map (fun b => (c, b))
                             (list_ascii_of_string input))%list m2).
  split; [reflexivity|].
  split; [reflexivity|].
  split; [reflexivity|].
  split; [reflexivity|].
  split; [rewrite H2; exact E2|].
  split; [exact S2|].
  split; [exact C2|].
  split; [exact O2|].
  split; [rewrite (online_forwards None input reader m2 c S2 C2), L2;
          reflexivity|].
  assert (Hout : connOut m2 = []).
  { unfold setStatus in E2. cbn in E2. injection E2 as <-. reflexivity. }
  split; [destruct m2; cbn in *; rewrite Hout; reflexivity|].
  split; [destruct m2; reflexivity|].
  destruct m2; exact S2.
Qed.

Lemma X20_typed_dial_goes_online_witness :
  let m0 := NewModem (mkConfig true None "") in
  let reader := mkReadTask false false "" "D5551234" in
  exists m1 m2 m3,
    ttyReadBytes None (String "A" (String "T" (String "D" "5551234" ++ CR)))
      newReadTask m0 = Ok (reader, m1)
    /\ status m1 = StatusDialing
    /\ dialTasks m1 = [(1%nat, "5551234")]
    /\ ttyOut m1
       = app (List.map (fun b => String b "")
                (list_ascii_of_string "ATD5551234"))
             [CR]
    /\ processDialing 1 (DialConn (Some 7%nat)) m1 = Ok m2
    /\ status m2 = StatusConnected
    /\ conn m2 = Some 7%nat
    /\ ttyOut m2 = app (ttyOut m1) [CRLF ++ connectStr m0 ++ CRLF]
    /\ ttyReadBytes None "hello" reader m2 = Ok (reader, m3)
    /\ connOut m3 = List.map (fun b => (7%nat, b)) (list_ascii_of_string "hello")
    /\ ttyOut m3 = ttyOut m2
    /\ status m3 = StatusConnected.
Proof.
  apply (X20_typed_dial_goes_online "" "5551234" "hello" 7%nat);
    [reflexivity | reflexivity | simpl; lia].
Defined.
